(** * The order-entry form of the dashboard ([components/orders/order-form.tsx])

    A shallow embedding of the [OrderForm] component: the draft state held
    in React hooks, the closures that edit the item list, the derived total
    and the submit handler with its calls to the Supabase client and to the
    router.  JavaScript numbers are IEEE 754 binary64 values, which is what
    Rocq's primitive [float] is; no law of exact arithmetic is used below. *)

From Stdlib Require Import Floats Ascii String List.
From stdpp Require Import base list strings.
Import ListNotations.

Local Open Scope string_scope.
Local Open Scope list_scope.

(** * JavaScript primitives used by the component *)

Module Js.

(** The [number] type. *)
Definition number : Set := float.

(** Truthiness of a string: only the empty string is falsy. *)
Definition truthy (s : string) : bool := negb (String.eqb s "").

(** [s || null] for a string [s]. *)
Definition orNull (s : string) : option string :=
  if truthy s then Some s else None.

(** [m || d] where [m] is a string that may be [undefined]. *)
Definition orElse (m : option string) (d : string) : string :=
  match m with
  | Some s => if truthy s then s else d
  | None => d
  end.

(** White space and line terminators of ECMAScript among the code units
    below 256 (a [string] here is a sequence of one-byte code units):
    TAB, LF, VT, FF, CR, SP and NBSP. *)
Definition isWhiteSpace (c : ascii) : bool :=
  let n := nat_of_ascii c in
  (Nat.leb 9 n && Nat.leb n 13) || Nat.eqb n 32 || Nat.eqb n 160.

(** [String.prototype.trimStart]. *)
Fixpoint trimStart (s : string) : string :=
  match s with
  | EmptyString => EmptyString
  | String c rest => if isWhiteSpace c then trimStart rest else s
  end.

(** [String.prototype.trimEnd]. *)
Fixpoint trimEnd (s : string) : string :=
  match s with
  | EmptyString => EmptyString
  | String c rest =>
      match trimEnd rest with
      | EmptyString => if isWhiteSpace c then EmptyString else String c EmptyString
      | kept => String c kept
      end
  end.

(** [String.prototype.trim]. *)
Definition trim (s : string) : string := trimEnd (trimStart s).

(** A string made of white space only (the empty string included). *)
Fixpoint blank (s : string) : bool :=
  match s with
  | EmptyString => true
  | String c rest => isWhiteSpace c && blank rest
  end.

(** [Array.prototype.filter], whose callback receives the element and its
    index; [filterFrom i] numbers the elements from [i]. *)
Fixpoint filterFrom {A : Type} (i : nat) (keep : A -> nat -> bool) (l : list A) : list A :=
  match l with
  | [] => []
  | x :: rest =>
      if keep x i then x :: filterFrom (S i) keep rest
      else filterFrom (S i) keep rest
  end.

Definition filter {A : Type} (keep : A -> nat -> bool) (l : list A) : list A :=
  filterFrom 0 keep l.

(** [Array.prototype.find]. *)
Definition find {A : Type} (test : A -> bool) (l : list A) : option A :=
  List.find test l.

(** [Array.prototype.reduce] with an initial value. *)
Definition reduce {A B : Type} (step : B -> A -> B) (init : B) (l : list A) : B :=
  List.fold_left step l init.

(** Truthiness of a number: [0], [-0] and [NaN] are falsy. *)
Definition truthyNumber (x : number) : bool :=
  negb (PrimFloat.is_nan x || PrimFloat.is_zero x).

(** [x || d] for a number [x]. *)
Definition numOr (x d : number) : number :=
  if truthyNumber x then x else d.

End Js.

Abbreviation number := Js.number.

(** * Data model (the interfaces of the source file) *)

Module Customer.
Record t : Type := mk {
  id : string;
  name : string;
  email : option string
}.
End Customer.

Module Product.
Record t : Type := mk {
  id : string;
  name : string;
  price : number;
  stock_quantity : number;
  sku : option string
}.
End Product.

Module OrderItem.
Record t : Type := mk {
  productId : string;
  quantity : number;
  unitPrice : number
}.
End OrderItem.

Record OrderFormProps : Type := {
  customers : list Customer.t;
  products : list Product.t
}.

(** The six [useState] cells of the component. *)
Record FormState : Type := mkState {
  customerId : string;
  paymentMethod : string;
  notes : string;
  orderItems : list OrderItem.t;
  isSubmitting : bool;
  error : option string
}.

(** The state of the first render. *)
Definition initialState : FormState :=
  {| customerId := "walk-in";
     paymentMethod := "cash";
     notes := "";
     orderItems := [];
     isSubmitting := false;
     error := None |}.

Definition setOrderItems (items : list OrderItem.t) (s : FormState) : FormState :=
  {| customerId := customerId s;
     paymentMethod := paymentMethod s;
     notes := notes s;
     orderItems := items;
     isSubmitting := isSubmitting s;
     error := error s |}.

Definition setIsSubmitting (b : bool) (s : FormState) : FormState :=
  {| customerId := customerId s;
     paymentMethod := paymentMethod s;
     notes := notes s;
     orderItems := orderItems s;
     isSubmitting := b;
     error := error s |}.

Definition setError (e : option string) (s : FormState) : FormState :=
  {| customerId := customerId s;
     paymentMethod := paymentMethod s;
     notes := notes s;
     orderItems := orderItems s;
     isSubmitting := isSubmitting s;
     error := e |}.

(** [keyof OrderItem]. *)
Module Field.
Inductive t : Set := productId | quantity | unitPrice.
End Field.

(** [string | number], the type of the value handed to [updateOrderItem]. *)
Inductive Value : Set :=
| Str (s : string)
| Num (n : number).

(** * Editing the item list *)

Section Draft.

Variable products : list Product.t.

Definition addOrderItem (s : FormState) : FormState :=
  setOrderItems
    (orderItems s ++
       [ {| OrderItem.productId := ""; OrderItem.quantity := 1%float; OrderItem.unitPrice := 0%float |} ])
    s.

Definition removeOrderItem (index : nat) (s : FormState) : FormState :=
  setOrderItems (Js.filter (fun _ i => negb (Nat.eqb i index)) (orderItems s)) s.

(** [{ ...item, [field]: value }].  The result is [None] when it is no
    [OrderItem] any more, that is when the value has the wrong type for
    the field. *)
Definition assignField (item : OrderItem.t) (field : Field.t) (value : Value) : option OrderItem.t :=
  match field, value with
  | Field.productId, Str v =>
      Some {| OrderItem.productId := v;
              OrderItem.quantity := OrderItem.quantity item;
              OrderItem.unitPrice := OrderItem.unitPrice item |}
  | Field.quantity, Num v =>
      Some {| OrderItem.productId := OrderItem.productId item;
              OrderItem.quantity := v;
              OrderItem.unitPrice := OrderItem.unitPrice item |}
  | Field.unitPrice, Num v =>
      Some {| OrderItem.productId := OrderItem.productId item;
              OrderItem.quantity := OrderItem.quantity item;
              OrderItem.unitPrice := v |}
  | _, _ => None
  end.

(** [updateOrderItem].  An assignment [updatedItems[index] = ...] past the
    end makes JavaScript grow the array with an object that lacks the other
    fields; such a result is outside [OrderItem[]] and is [None] here, as
    is an assignment of a value of the wrong type.  The rendered list only
    passes indices of existing rows and values of the field's type. *)
Definition updateOrderItem (index : nat) (field : Field.t) (value : Value)
    (s : FormState) : option FormState :=
  let updatedItems := orderItems s in
  match field, value with
  | Field.productId, Str v =>
      match Js.find (fun p => String.eqb (Product.id p) v) products with
      | Some product =>
          match updatedItems !! index with
          | Some item =>
              Some (setOrderItems
                      (<[index := {| OrderItem.productId := v;
                                     OrderItem.quantity := OrderItem.quantity item;
                                     OrderItem.unitPrice := Product.price product |}]>
                         updatedItems) s)
          | None => None
          end
      | None => Some (setOrderItems updatedItems s)
      end
  | _, _ =>
      match updatedItems !! index with
      | Some item =>
          match assignField item field value with
          | Some item' => Some (setOrderItems (<[index := item']> updatedItems) s)
          | None => None
          end
      | None => None
      end
  end.

Definition calculateTotal (s : FormState) : number :=
  Js.reduce
    (fun total item => (total + OrderItem.quantity item * OrderItem.unitPrice item)%float)
    0%float (orderItems s).

End Draft.

(** The user's edits of the item list, one constructor per closure. *)
Inductive Action : Set :=
| AddItem
| RemoveItem (index : nat)
| UpdateItem (index : nat) (field : Field.t) (value : Value).

Definition dispatch (products : list Product.t) (a : Action) (s : FormState) : option FormState :=
  match a with
  | AddItem => Some (addOrderItem s)
  | RemoveItem index => Some (removeOrderItem index s)
  | UpdateItem index field value => updateOrderItem products index field value s
  end.

(** The actions are applied one render after the other, each closure
    reading the state its predecessor has set. *)
Fixpoint runActions (products : list Product.t) (actions : list Action) (s : FormState)
    : option FormState :=
  match actions with
  | [] => Some s
  | a :: rest =>
      match dispatch products a s with
      | Some s' => runActions products rest s'
      | None => None
      end
  end.

(** An action that the rendered rows can issue in state [s]: the index is
    that of an existing row and the value has the type of the field. *)
Definition issuable (a : Action) (s : FormState) : bool :=
  match a with
  | AddItem => true
  | RemoveItem index => Nat.ltb index (length (orderItems s))
  | UpdateItem index field value =>
      Nat.ltb index (length (orderItems s)) &&
      match field, value with
      | Field.productId, Str _ | Field.quantity, Num _ | Field.unitPrice, Num _ => true
      | _, _ => false
      end
  end.

(** The sum the specification speaks of: the line totals added up in list
    order, starting from zero. *)
Definition lineTotal (item : OrderItem.t) : number :=
  (OrderItem.quantity item * OrderItem.unitPrice item)%float.

Fixpoint sumFrom (acc : number) (terms : list number) : number :=
  match terms with
  | [] => acc
  | x :: rest => sumFrom (acc + x)%float rest
  end.

Definition sumOfLineTotals (items : list OrderItem.t) : number :=
  sumFrom 0%float (map lineTotal items).

(** * The controls of a row

    The handlers the rendered rows attach to their inputs.  [parsed] stands
    for [Number.parseInt(e.target.value)] in the quantity input and for
    [Number.parseFloat(e.target.value)] in the unit price input. *)

Definition onProductChange (products : list Product.t) (index : nat) (value : string)
    (s : FormState) : option FormState :=
  updateOrderItem products index Field.productId (Str value) s.

Definition onQuantityChange (products : list Product.t) (index : nat) (parsed : number)
    (s : FormState) : option FormState :=
  updateOrderItem products index Field.quantity (Num (Js.numOr parsed 1%float)) s.

Definition onUnitPriceChange (products : list Product.t) (index : nat) (parsed : number)
    (s : FormState) : option FormState :=
  updateOrderItem products index Field.unitPrice (Num (Js.numOr parsed 0%float)) s.

(** What the user can do to the item list through the rendered controls. *)
Inductive Control : Set :=
| AddItemButton
| ProductSelect (index : nat) (value : string)
| QuantityInput (index : nat) (parsed : number)
| UnitPriceInput (index : nat) (parsed : number)
| RemoveButton (index : nat).

Definition operate (products : list Product.t) (c : Control) (s : FormState)
    : option FormState :=
  match c with
  | AddItemButton => Some (addOrderItem s)
  | ProductSelect index value => onProductChange products index value s
  | QuantityInput index parsed => onQuantityChange products index parsed s
  | UnitPriceInput index parsed => onUnitPriceChange products index parsed s
  | RemoveButton index => Some (removeOrderItem index s)
  end.

Fixpoint runControls (products : list Product.t) (controls : list Control) (s : FormState)
    : option FormState :=
  match controls with
  | [] => Some s
  | c :: rest =>
      match operate products c s with
      | Some s' => runControls products rest s'
      | None => None
      end
  end.

(** The number of clicks on the add button in a sequence of controls. *)
Fixpoint addClicks (controls : list Control) : nat :=
  match controls with
  | [] => 0
  | AddItemButton :: rest => S (addClicks rest)
  | _ :: rest => addClicks rest
  end.

(** A row that names no product yet, or a product of the catalog. *)
Definition blankOrListed (products : list Product.t) (item : OrderItem.t) : Prop :=
  OrderItem.productId item = "" \/ In (OrderItem.productId item) (map Product.id products).

(** * The collaborators of the submit handler *)

(** The record inserted into the [orders] table. *)
Module OrderData.
Record t : Type := mk {
  customer_id : option string;
  total_amount : number;
  status : string;
  payment_method : option string;
  notes : option string
}.
End OrderData.

(** A record inserted into the [order_items] table. *)
Module OrderItemData.
Record t : Type := mk {
  order_id : string;
  product_id : string;
  quantity : number;
  unit_price : number;
  total_price : number
}.
End OrderItemData.

(** The row that [.select().single()] hands back; the handler reads its
    generated [id] only. *)
Module Order.
Record t : Type := mk { id : string }.
End Order.

(** The error object of the client; [message] may be missing. *)
Module PostgrestError.
Record t : Type := mk { message : option string }.
End PostgrestError.

(** What an awaited query resolves to: [{ data, error }] with exactly one
    of the two set (the contract of the client: created record(s) or an
    error; the client reports failures in [error] and does not reject). *)
Inductive PostgrestResponse (A : Type) : Type :=
| Success (data : A)
| Failure (error : PostgrestError.t).

Arguments Success {A} data.
Arguments Failure {A} error.

(** The calls the component can make on what surrounds it: the state
    setters, the form event, the Supabase client and the router.
    [OrdersDelete] is the call a rollback of the order would need; the
    handler below never makes it. *)
Inductive Call : Type :=
| SetIsSubmitting (value : bool)
| SetError (value : option string)
| PreventDefault
| CreateClient
| OrdersInsertSelectSingle (rows : list OrderData.t)
| OrderItemsInsert (rows : list OrderItemData.t)
| OrdersDelete (id : string)
| RouterPush (href : string).

(** The type of the value a call returns (or resolves to, when awaited). *)
Definition Reply (c : Call) : Type :=
  match c with
  | OrdersInsertSelectSingle _ => PostgrestResponse Order.t
  | OrderItemsInsert _ => PostgrestResponse unit
  | OrdersDelete _ => PostgrestResponse unit
  | _ => unit
  end.

(** A handler body: it returns, throws, or makes a call and goes on with
    the reply. *)
Inductive Prog (A : Type) : Type :=
| Ret (a : A)
| Throw (e : PostgrestError.t)
| Do (c : Call) (k : Reply c -> Prog A).

Arguments Ret {A} a.
Arguments Throw {A} e.
Arguments Do {A} c k.

Fixpoint bind {A B : Type} (p : Prog A) (f : A -> Prog B) : Prog B :=
  match p with
  | Ret a => f a
  | Throw e => Throw e
  | Do c k => Do c (fun r => bind (k r) f)
  end.

Definition call (c : Call) : Prog (Reply c) := Do c Ret.

(** [try { body } catch (error) { handler error }]. *)
Fixpoint tryCatch {A : Type} (body : Prog A) (handler : PostgrestError.t -> Prog A) : Prog A :=
  match body with
  | Ret a => Ret a
  | Throw e => handler e
  | Do c k => Do c (fun r => tryCatch (k r) handler)
  end.

(** [try { body } finally { cleanup }]: the cleanup runs on both exits and
    the exit of the body is kept. *)
Fixpoint tryFinally {A : Type} (body : Prog A) (cleanup : Prog unit) : Prog A :=
  match body with
  | Ret a => bind cleanup (fun _ => Ret a)
  | Throw e => bind cleanup (fun _ => Throw e)
  | Do c k => Do c (fun r => tryFinally (k r) cleanup)
  end.

Declare Scope prog_scope.
Delimit Scope prog_scope with prog.
Bind Scope prog_scope with Prog.

Notation "x <- p ;; q" := (bind p (fun x => q))
  (at level 100, p at next level, right associativity) : prog_scope.
Notation "p ;; q" := (bind p (fun _ => q))
  (at level 100, right associativity) : prog_scope.
Notation "'try' body 'catch' x => handler 'finally' cleanup" :=
  (tryFinally (tryCatch body (fun x => handler)) cleanup)
  (at level 100, x name, body at level 200, handler at level 200) : prog_scope.

(** The data store seen from the handler: what each query resolves to. *)
Record Backend : Type := {
  ordersInsert : list OrderData.t -> PostgrestResponse Order.t;
  orderItemsInsert : list OrderItemData.t -> PostgrestResponse unit;
  ordersDelete : string -> PostgrestResponse unit
}.

Definition reply (be : Backend) (c : Call) : Reply c :=
  match c return Reply c with
  | SetIsSubmitting _ => tt
  | SetError _ => tt
  | PreventDefault => tt
  | CreateClient => tt
  | OrdersInsertSelectSingle rows => ordersInsert be rows
  | OrderItemsInsert rows => orderItemsInsert be rows
  | OrdersDelete id => ordersDelete be id
  | RouterPush _ => tt
  end.

(** The effect of a call on the hook state. *)
Definition effect (c : Call) (s : FormState) : FormState :=
  match c with
  | SetIsSubmitting value => setIsSubmitting value s
  | SetError value => setError value s
  | _ => s
  end.

Inductive Exit (A : Type) : Type :=
| Returned (a : A)
| Uncaught (e : PostgrestError.t).

Arguments Returned {A} a.
Arguments Uncaught {A} e.

(** The result of running a handler: how it ended, the hook state it left
    and the calls it made, in order. *)
Record Run (A : Type) : Type := mkRun {
  exit : Exit A;
  final : FormState;
  trace : list Call
}.

Arguments mkRun {A} exit final trace.
Arguments exit {A} r.
Arguments final {A} r.
Arguments trace {A} r.

Fixpoint run {A : Type} (be : Backend) (p : Prog A) (s : FormState) : Run A :=
  match p with
  | Ret a => mkRun (Returned a) s []
  | Throw e => mkRun (Uncaught e) s []
  | Do c k =>
      let r := run be (k (reply be c)) (effect c s) in
      mkRun (exit r) (final r) (c :: trace r)
  end.

(** The calls that reach the data store. *)
Definition isStoreCall (c : Call) : bool :=
  match c with
  | OrdersInsertSelectSingle _ | OrderItemsInsert _ | OrdersDelete _ => true
  | _ => false
  end.

Definition storeCalls (t : list Call) : list Call := List.filter isStoreCall t.


(** [try { body } catch (error) { handler error } finally { cleanup }]. *)
Definition tryCatchFinally {A : Type} (body : Prog A)
    (handler : PostgrestError.t -> Prog A) (cleanup : Prog unit) : Prog A :=
  tryFinally (tryCatch body handler) cleanup.

(** * The submit handler *)

Section Submit.

(** The hook values the closures of one render have captured. *)
Variable s : FormState.

Definition orderData : OrderData.t :=
  {| OrderData.customer_id :=
       if String.eqb (customerId s) "walk-in" then None else Some (customerId s);
     OrderData.total_amount := calculateTotal s;
     OrderData.status := "pending";
     OrderData.payment_method := Js.orNull (paymentMethod s);
     OrderData.notes := Js.orNull (Js.trim (notes s)) |}.

Definition orderItemsData (order : Order.t) : list OrderItemData.t :=
  map (fun item =>
         {| OrderItemData.order_id := Order.id order;
            OrderItemData.product_id := OrderItem.productId item;
            OrderItemData.quantity := OrderItem.quantity item;
            OrderItemData.unit_price := OrderItem.unitPrice item;
            OrderItemData.total_price :=
              (OrderItem.quantity item * OrderItem.unitPrice item)%float |})
      (orderItems s).

Definition handleSubmit : Prog unit :=
  (call PreventDefault ;;
   call (SetIsSubmitting true) ;;
   call (SetError None) ;;
   if Nat.eqb (length (orderItems s)) 0 then
     (call (SetError (Some "Please add at least one item to the order")) ;;
      call (SetIsSubmitting false) ;;
      Ret tt)
   else
     (call CreateClient ;;
      tryCatchFinally
        (r <- call (OrdersInsertSelectSingle [orderData]) ;;
         match r with
         | Failure orderError => Throw orderError
         | Success order =>
             (r' <- call (OrderItemsInsert (orderItemsData order)) ;;
              match r' with
              | Failure itemsError => Throw itemsError
              | Success _ => call (RouterPush ("/dashboard/orders/" ++ Order.id order))
              end)
         end)
        (fun error =>
           call (SetError (Some (Js.orElse (PostgrestError.message error) "An error occurred"))))
        (call (SetIsSubmitting false))))%prog.

End Submit.

(** One submission: the handler of the render of state [s], run from [s]. *)
Definition submit (be : Backend) (s : FormState) : Run unit :=
  run be (handleSubmit s) s.

(** * What a render shows *)

(** One row of the item list. *)
Record RowView : Type := {
  selected : string;
  quantityInput : number;
  unitPriceInput : number;
  rowTotal : number;
  (** [Some n] when the line "Only n in stock" is shown under the row *)
  stockNotice : option number
}.

Record View : Type := {
  rows : list RowView;
  emptyNotice : bool;
  itemCount : nat;
  total : number;
  errorText : option string;
  submitDisabled : bool;
  submitLabel : string;
  onSubmit : Prog unit
}.

Definition renderRow (products : list Product.t) (item : OrderItem.t) : RowView :=
  let product := Js.find (fun p => String.eqb (Product.id p) (OrderItem.productId item)) products in
  {| selected := OrderItem.productId item;
     quantityInput := OrderItem.quantity item;
     unitPriceInput := OrderItem.unitPrice item;
     rowTotal := (OrderItem.quantity item * OrderItem.unitPrice item)%float;
     stockNotice :=
       match product with
       | Some product =>
           if PrimFloat.ltb (Product.stock_quantity product) (OrderItem.quantity item)
           then Some (Product.stock_quantity product)
           else None
       | None => None
       end |}.

Definition OrderForm (props : OrderFormProps) (s : FormState) : View :=
  {| rows := map (renderRow (products props)) (orderItems s);
     emptyNotice := Nat.eqb (length (orderItems s)) 0;
     itemCount := length (orderItems s);
     total := calculateTotal s;
     errorText := match error s with Some e => Js.orNull e | None => None end;
     submitDisabled := isSubmitting s || Nat.eqb (length (orderItems s)) 0;
     submitLabel := if isSubmitting s then "Creating..." else "Create Order";
     onSubmit := handleSubmit s |}.

(** Two catalogs that differ in the stock quantities only. *)
Definition sameButStock (p q : Product.t) : Prop :=
  Product.id p = Product.id q /\ Product.name p = Product.name q /\
  Product.price p = Product.price q /\ Product.sku p = Product.sku q.

Definition differInStockOnly (props props' : OrderFormProps) : Prop :=
  customers props = customers props' /\
  Forall2 sameButStock (products props) (products props').

(** * Outcomes of a submission *)

(** The state a submission leaves: the flag is down again and the error
    cell holds [e]; the draft cells are those of [s]. *)
Definition settled (e : option string) (s : FormState) : FormState :=
  {| customerId := customerId s;
     paymentMethod := paymentMethod s;
     notes := notes s;
     orderItems := orderItems s;
     isSubmitting := false;
     error := e |}.

(** The text shown for an error caught by the handler. *)
Definition shownMessage (e : PostgrestError.t) : string :=
  Js.orElse (PostgrestError.message e) "An error occurred".

(** The calls every submission of a non-empty draft starts with. *)
Definition opening (s : FormState) : list Call :=
  [ PreventDefault; SetIsSubmitting true; SetError None; CreateClient;
    OrdersInsertSelectSingle [orderData s] ].

(** A row without its stock line. *)
Definition withoutStockNotice (r : RowView) : RowView :=
  {| selected := selected r;
     quantityInput := quantityInput r;
     unitPriceInput := unitPriceInput r;
     rowTotal := rowTotal r;
     stockNotice := None |}.

(** * Sample catalogs, drafts and data stores *)

Definition sampleCatalog : list Product.t :=
  [ {| Product.id := "A"; Product.name := "Ring"; Product.price := 10%float;
       Product.stock_quantity := 3%float; Product.sku := Some "R-1" |};
    {| Product.id := "B"; Product.name := "Chain"; Product.price := 5%float;
       Product.stock_quantity := 8%float; Product.sku := None |} ].

Definition sampleActions : list Action :=
  [ AddItem;
    UpdateItem 0 Field.productId (Str "A");
    UpdateItem 0 Field.quantity (Num 2%float);
    AddItem;
    AddItem;
    UpdateItem 2 Field.productId (Str "B");
    RemoveItem 1 ].

Definition sampleItems : list OrderItem.t :=
  [ {| OrderItem.productId := "A"; OrderItem.quantity := 2%float; OrderItem.unitPrice := 10%float |};
    {| OrderItem.productId := "B"; OrderItem.quantity := 1%float; OrderItem.unitPrice := 5%float |} ].

Definition sampleDraft : FormState := setOrderItems sampleItems initialState.

(** A data store that refuses every query. *)
Definition refusing : Backend :=
  {| ordersInsert := fun _ => Failure {| PostgrestError.message := Some "permission denied" |};
     orderItemsInsert := fun _ => Failure {| PostgrestError.message := None |};
     ordersDelete := fun _ => Failure {| PostgrestError.message := None |} |}.

(** A data store that accepts every query and numbers the order "o-1". *)
Definition accepting : Backend :=
  {| ordersInsert := fun _ => Success {| Order.id := "o-1" |};
     orderItemsInsert := fun _ => Success tt;
     ordersDelete := fun _ => Success tt |}.

Definition giftDraft : FormState :=
  {| customerId := "c-7";
     paymentMethod := "credit_card";
     notes := "  gift wrap  ";
     orderItems := sampleItems;
     isSubmitting := false;
     error := None |}.

(** A data store that creates the order "o-1" and then refuses its items. *)
Definition halfway : Backend :=
  {| ordersInsert := fun _ => Success {| Order.id := "o-1" |};
     orderItemsInsert := fun _ => Failure {| PostgrestError.message := Some "insert failed" |};
     ordersDelete := fun _ => Success tt |}.

(** A data store that creates the order "o-1" and then refuses its items
    with an error that has no message. *)
Definition wordless : Backend :=
  {| ordersInsert := fun _ => Success {| Order.id := "o-1" |};
     orderItemsInsert := fun _ => Failure {| PostgrestError.message := None |};
     ordersDelete := fun _ => Success tt |}.

(** Five rings asked for, three in stock. *)
Definition overDraft : FormState :=
  setOrderItems
    [ {| OrderItem.productId := "A"; OrderItem.quantity := 5%float;
         OrderItem.unitPrice := 10%float |} ]
    initialState.

Definition restocked : list Product.t :=
  [ {| Product.id := "A"; Product.name := "Ring"; Product.price := 10%float;
       Product.stock_quantity := 50%float; Product.sku := Some "R-1" |};
    {| Product.id := "B"; Product.name := "Chain"; Product.price := 5%float;
       Product.stock_quantity := 0%float; Product.sku := None |} ].

(** A draft whose display still shows the error of an earlier attempt. *)
Definition staleDraft : FormState :=
  {| customerId := "walk-in";
     paymentMethod := "cash";
     notes := "";
     orderItems := sampleItems;
     isSubmitting := false;
     error := Some "permission denied" |}.

Definition sampleControls : list Control :=
  [ AddItemButton;
    ProductSelect 0 "A";
    QuantityInput 0 nan;
    QuantityInput 0 0%float;
    UnitPriceInput 0 nan;
    AddItemButton;
    QuantityInput 1 4%float;
    RemoveButton 0 ].

(** Two rows added, a product chosen for the first, then changed, and an
    unknown value offered to the second. *)
Definition listingControls : list Control :=
  [ AddItemButton;
    ProductSelect 0 "A";
    AddItemButton;
    ProductSelect 0 "B";
    ProductSelect 1 "Z" ].

(** * Facts about the JavaScript primitives *)

Lemma truthy_false_iff (s : string) : Js.truthy s = false <-> s = "".
Proof.
  unfold Js.truthy. rewrite negb_false_iff. apply String.eqb_eq.
Qed.

Lemma orNull_empty : Js.orNull "" = None.
Proof. reflexivity. Qed.

Lemma orNull_nonempty (s : string) : s <> "" -> Js.orNull s = Some s.
Proof.
  intros Hs. unfold Js.orNull.
  destruct (Js.truthy s) eqn:E; [reflexivity|].
  apply truthy_false_iff in E. contradiction.
Qed.

Lemma orElse_message (m d : string) : m <> "" -> Js.orElse (Some m) d = m.
Proof.
  intros Hm. unfold Js.orElse.
  destruct (Js.truthy m) eqn:E; [reflexivity|].
  apply truthy_false_iff in E. contradiction.
Qed.

Lemma trimStart_blank (s : string) : Js.blank s = true -> Js.trimStart s = "".
Proof.
  induction s as [|c rest IH]; simpl; [reflexivity|].
  intros [Hc Hrest]%andb_true_iff. rewrite Hc. auto.
Qed.

Lemma trim_blank (s : string) : Js.blank s = true -> Js.trim s = "".
Proof.
  intros H. unfold Js.trim. rewrite trimStart_blank by assumption. reflexivity.
Qed.

(** A filter that keeps every index from [k] on keeps the list. *)
Lemma filterFrom_keeps_all {A : Type} (keep : A -> nat -> bool) (l : list A) (k : nat) :
  (forall x i, k <= i -> keep x i = true) -> Js.filterFrom k keep l = l.
Proof.
  revert k. induction l as [|x l IH]; intros k Hkeep; simpl; [reflexivity|].
  rewrite Hkeep by lia. f_equal. apply IH. intros y i Hi. apply Hkeep. lia.
Qed.

(** Filtering out one index is the deletion of that position. *)
Lemma filterFrom_delete {A : Type} (l : list A) (k index : nat) :
  Js.filterFrom k (fun _ i => negb (Nat.eqb i (k + index))) l = delete index l.
Proof.
  revert k index. induction l as [|x l IH]; intros k index; simpl.
  - destruct index; reflexivity.
  - destruct index as [|index].
    + rewrite Nat.add_0_r, Nat.eqb_refl. simpl.
      apply filterFrom_keeps_all. intros _ i Hi.
      apply negb_true_iff, Nat.eqb_neq. lia.
    + assert (Nat.eqb k (k + S index) = false) as -> by (apply Nat.eqb_neq; lia).
      simpl. f_equal.
      replace (k + S index) with (S k + index) by lia. apply IH.
Qed.

Lemma filter_out_index {A : Type} (l : list A) (index : nat) :
  Js.filter (fun _ i => negb (Nat.eqb i index)) l = delete index l.
Proof. exact (filterFrom_delete l 0 index). Qed.

Lemma find_present (products : list Product.t) (id : string) :
  In id (map Product.id products) ->
  exists product,
    Js.find (fun p => String.eqb (Product.id p) id) products = Some product /\
    In product products /\ Product.id product = id.
Proof.
  intros Hin. apply in_map_iff in Hin as (p & Hp & Hinp).
  destruct (Js.find (fun p => String.eqb (Product.id p) id) products) as [product|] eqn:E.
  - exists product. split; [reflexivity|].
    apply find_some in E as [Hmem Heq]. split; [assumption|].
    apply String.eqb_eq. assumption.
  - exfalso. pose proof (find_none _ _ E p Hinp) as Hno. simpl in Hno.
    apply String.eqb_neq in Hno. contradiction.
Qed.

Lemma find_absent (products : list Product.t) (v : string) :
  (forall p, In p products -> Product.id p <> v) ->
  Js.find (fun p => String.eqb (Product.id p) v) products = None.
Proof.
  intros Hno. unfold Js.find.
  destruct (List.find _ products) as [p|] eqn:E; [|reflexivity].
  apply find_some in E as [Hin Heq]. apply String.eqb_eq in Heq.
  exfalso. exact (Hno p Hin Heq).
Qed.

Lemma setOrderItems_same (s : FormState) : setOrderItems (orderItems s) s = s.
Proof. destruct s; reflexivity. Qed.

(** * The derived total *)

Lemma reduce_sumFrom (items : list OrderItem.t) (acc : number) :
  Js.reduce
    (fun total item => (total + OrderItem.quantity item * OrderItem.unitPrice item)%float)
    acc items
  = sumFrom acc (map lineTotal items).
Proof.
  unfold Js.reduce. revert acc.
  induction items as [|item items IH]; intros acc; simpl; [reflexivity|].
  apply IH.
Qed.

Lemma calculateTotal_sum (s : FormState) :
  calculateTotal s = sumOfLineTotals (orderItems s).
Proof. apply reduce_sumFrom. Qed.

(** Adding a row at the end adds its line total to the total. *)
Lemma calculateTotal_snoc (s : FormState) (item : OrderItem.t) :
  calculateTotal (setOrderItems (orderItems s ++ [item]) s)
  = (calculateTotal s + lineTotal item)%float.
Proof.
  unfold calculateTotal, Js.reduce. simpl. rewrite fold_left_app. reflexivity.
Qed.

(** An action the rows can issue is always carried out. *)
Lemma dispatch_issuable (products : list Product.t) (a : Action) (s : FormState) :
  issuable a s = true -> exists s', dispatch products a s = Some s'.
Proof.
  destruct a as [|index|index field value]; simpl; intros H; eauto.
  apply andb_true_iff in H as [Hlt Hty]. apply Nat.ltb_lt in Hlt.
  apply lookup_lt_is_Some in Hlt as [item Hitem].
  unfold updateOrderItem.
  destruct field, value; try discriminate Hty; rewrite ?Hitem; simpl; eauto.
  destruct (Js.find _ products); eauto.
Qed.

(** C1: after any sequence of addItem, removeItem and updateItem applied to
    the empty draft, [calculateTotal] is the sum of quantity times unit
    price over the resulting items (added in list order from zero), it is
    zero when no item is left, and it is a function of the item list alone:
    it returns a number and sets no state. *)
Theorem calculateTotal_after_actions
    (products : list Product.t) (actions : list Action) (s : FormState)
    (Hrun : runActions products actions initialState = Some s) :
  calculateTotal s = sumOfLineTotals (orderItems s) /\
  (orderItems s = [] -> calculateTotal s = 0%float) /\
  (forall s', orderItems s' = orderItems s -> calculateTotal s' = calculateTotal s).
Proof.
  split; [apply calculateTotal_sum|]. split.
  - intros Hnil. unfold calculateTotal. rewrite Hnil. reflexivity.
  - intros s' Hsame. unfold calculateTotal. rewrite Hsame. reflexivity.
Qed.

Example sampleDraft_total : calculateTotal sampleDraft = 25%float.
Proof. reflexivity. Qed.

Lemma calculateTotal_after_actions_witness :
  runActions sampleCatalog sampleActions initialState = Some sampleDraft /\
  (calculateTotal sampleDraft = sumOfLineTotals (orderItems sampleDraft) /\
   (orderItems sampleDraft = [] -> calculateTotal sampleDraft = 0%float) /\
   (forall s', orderItems s' = orderItems sampleDraft ->
               calculateTotal s' = calculateTotal sampleDraft)).
Proof.
  split; [reflexivity|].
  exact (calculateTotal_after_actions sampleCatalog sampleActions sampleDraft eq_refl).
Defined.

(** * Removing and updating rows *)

(** C8: removing the row at an index within bounds leaves one row less,
    namely all the other rows in their order: the rows before the index
    followed by the rows after it. *)
Theorem removeOrderItem_within_bounds
    (index : nat) (s : FormState) (Hindex : index < length (orderItems s)) :
  length (orderItems (removeOrderItem index s)) = length (orderItems s) - 1 /\
  orderItems (removeOrderItem index s)
    = take index (orderItems s) ++ drop (S index) (orderItems s) /\
  (forall j, j < index ->
     orderItems (removeOrderItem index s) !! j = orderItems s !! j) /\
  (forall j, index <= j ->
     orderItems (removeOrderItem index s) !! j = orderItems s !! S j).
Proof.
  unfold removeOrderItem. simpl. rewrite filter_out_index.
  split; [|split; [|split]].
  - apply length_delete, lookup_lt_is_Some. exact Hindex.
  - apply delete_take_drop.
  - intros j Hj. apply list_lookup_delete_lt. exact Hj.
  - intros j Hj. apply list_lookup_delete_ge. exact Hj.
Qed.

Lemma removeOrderItem_within_bounds_witness :
  1 < length (orderItems (addOrderItem sampleDraft)) /\
  (length (orderItems (removeOrderItem 1 (addOrderItem sampleDraft)))
     = length (orderItems (addOrderItem sampleDraft)) - 1 /\
   orderItems (removeOrderItem 1 (addOrderItem sampleDraft))
     = take 1 (orderItems (addOrderItem sampleDraft))
       ++ drop 2 (orderItems (addOrderItem sampleDraft)) /\
   (forall j, j < 1 ->
      orderItems (removeOrderItem 1 (addOrderItem sampleDraft)) !! j
      = orderItems (addOrderItem sampleDraft) !! j) /\
   (forall j, 1 <= j ->
      orderItems (removeOrderItem 1 (addOrderItem sampleDraft)) !! j
      = orderItems (addOrderItem sampleDraft) !! S j)).
Proof.
  assert (1 < length (orderItems (addOrderItem sampleDraft))) as Hlt by (simpl; lia).
  split; [exact Hlt|].
  exact (removeOrderItem_within_bounds 1 (addOrderItem sampleDraft) Hlt).
Defined.

(** C7: at an index within bounds, choosing a product id that the catalog
    has sets the row's productId to that id and its unitPrice to the price
    of the catalog's product with that id (the first such entry), whatever
    the unitPrice was before; setting quantity or unitPrice changes that
    field of the row and nothing else. *)
Theorem updateOrderItem_within_bounds
    (products : list Product.t) (index : nat) (s : FormState) (item : OrderItem.t)
    (Hitem : orderItems s !! index = Some item) :
  (forall id, In id (map Product.id products) ->
     exists product,
       Js.find (fun p => String.eqb (Product.id p) id) products = Some product /\
       In product products /\ Product.id product = id /\
       updateOrderItem products index Field.productId (Str id) s
       = Some (setOrderItems
                 (<[index := {| OrderItem.productId := id;
                                OrderItem.quantity := OrderItem.quantity item;
                                OrderItem.unitPrice := Product.price product |}]>
                    (orderItems s)) s)) /\
  (forall v,
     updateOrderItem products index Field.quantity (Num v) s
     = Some (setOrderItems
               (<[index := {| OrderItem.productId := OrderItem.productId item;
                              OrderItem.quantity := v;
                              OrderItem.unitPrice := OrderItem.unitPrice item |}]>
                  (orderItems s)) s)) /\
  (forall v,
     updateOrderItem products index Field.unitPrice (Num v) s
     = Some (setOrderItems
               (<[index := {| OrderItem.productId := OrderItem.productId item;
                              OrderItem.quantity := OrderItem.quantity item;
                              OrderItem.unitPrice := v |}]>
                  (orderItems s)) s)).
Proof.
  split; [|split].
  - intros id Hid.
    destruct (find_present products id Hid) as (product & Hfind & Hin & Hpid).
    exists product. repeat (split; [assumption|]).
    unfold updateOrderItem. rewrite Hfind, Hitem. reflexivity.
  - intros v. unfold updateOrderItem. rewrite Hitem. reflexivity.
  - intros v. unfold updateOrderItem. rewrite Hitem. reflexivity.
Qed.

(** The row is rewritten in place: the list keeps its length, the row at
    the index is the new one and every other row is untouched. *)
Lemma insert_row_frame (items : list OrderItem.t) (index : nat) (item' : OrderItem.t) :
  index < length items ->
  length (<[index := item']> items) = length items /\
  <[index := item']> items !! index = Some item' /\
  (forall j, j <> index -> <[index := item']> items !! j = items !! j).
Proof.
  intros Hlt. split; [apply length_insert|]. split.
  - apply list_lookup_insert_eq. exact Hlt.
  - intros j Hj. apply list_lookup_insert_ne. congruence.
Qed.

(** A price typed in by hand is overwritten by the next product choice. *)
Example manual_price_is_overwritten :
  let edited := updateOrderItem sampleCatalog 1 Field.unitPrice (Num 99%float) sampleDraft in
  (orderItems <$> edited) =
    Some [ {| OrderItem.productId := "A"; OrderItem.quantity := 2%float; OrderItem.unitPrice := 10%float |};
           {| OrderItem.productId := "B"; OrderItem.quantity := 1%float; OrderItem.unitPrice := 99%float |} ] /\
  (orderItems <$> (edited ≫= updateOrderItem sampleCatalog 1 Field.productId (Str "A"))) =
    Some [ {| OrderItem.productId := "A"; OrderItem.quantity := 2%float; OrderItem.unitPrice := 10%float |};
           {| OrderItem.productId := "A"; OrderItem.quantity := 1%float; OrderItem.unitPrice := 10%float |} ].
Proof. split; reflexivity. Qed.

Lemma updateOrderItem_within_bounds_witness :
  orderItems sampleDraft !! 1
    = Some {| OrderItem.productId := "B"; OrderItem.quantity := 1%float;
              OrderItem.unitPrice := 5%float |} /\
  In "A" (map Product.id sampleCatalog) /\
  exists product,
    Js.find (fun p => String.eqb (Product.id p) "A") sampleCatalog = Some product /\
    In product sampleCatalog /\ Product.id product = "A" /\
    updateOrderItem sampleCatalog 1 Field.productId (Str "A") sampleDraft
    = Some (setOrderItems
              (<[1 := {| OrderItem.productId := "A";
                         OrderItem.quantity := 1%float;
                         OrderItem.unitPrice := Product.price product |}]>
                 (orderItems sampleDraft)) sampleDraft).
Proof.
  split; [reflexivity|]. split; [simpl; auto|].
  refine (proj1 (updateOrderItem_within_bounds sampleCatalog 1 sampleDraft _ eq_refl) "A" _).
  simpl. auto.
Defined.

(** C10: choosing a value that is the id of no product of the catalog
    changes nothing, at any index: not the productId of the row, not its
    unitPrice, no other row; the whole state is the one before. *)
Theorem updateOrderItem_unknown_product
    (products : list Product.t) (index : nat) (v : string) (s : FormState)
    (Hunknown : forall p, In p products -> Product.id p <> v) :
  updateOrderItem products index Field.productId (Str v) s = Some s /\
  (forall s', updateOrderItem products index Field.productId (Str v) s = Some s' ->
     orderItems s' = orderItems s).
Proof.
  assert (updateOrderItem products index Field.productId (Str v) s = Some s) as Heq.
  { unfold updateOrderItem. rewrite (find_absent products v Hunknown).
    rewrite setOrderItems_same. reflexivity. }
  split; [exact Heq|].
  intros s' Hs'. rewrite Heq in Hs'. injection Hs' as <-. reflexivity.
Qed.

Lemma updateOrderItem_unknown_product_witness :
  (forall p, In p sampleCatalog -> Product.id p <> "Z") /\
  updateOrderItem sampleCatalog 7 Field.productId (Str "Z") sampleDraft = Some sampleDraft.
Proof.
  assert (forall p, In p sampleCatalog -> Product.id p <> "Z") as Hno.
  { intros p [<-|[<-|[]]]; simpl; discriminate. }
  split; [exact Hno|].
  exact (proj1 (updateOrderItem_unknown_product sampleCatalog 7 "Z" sampleDraft Hno)).
Defined.

(** * Submitting *)

Ltac step_run :=
  cbn [run bind call tryCatchFinally tryFinally tryCatch reply effect exit final trace].

(** The three ways a submission of a non-empty draft can go. *)
Lemma submit_nonempty (be : Backend) (s : FormState) :
  orderItems s <> [] ->
  submit be s =
    match ordersInsert be [orderData s] with
    | Failure orderError =>
        mkRun (Returned tt) (settled (Some (shownMessage orderError)) s)
          (opening s ++
             [ SetError (Some (shownMessage orderError)); SetIsSubmitting false ])
    | Success order =>
        match orderItemsInsert be (orderItemsData s order) with
        | Failure itemsError =>
            mkRun (Returned tt) (settled (Some (shownMessage itemsError)) s)
              (opening s ++
                 [ OrderItemsInsert (orderItemsData s order);
                   SetError (Some (shownMessage itemsError)); SetIsSubmitting false ])
        | Success _ =>
            mkRun (Returned tt) (settled None s)
              (opening s ++
                 [ OrderItemsInsert (orderItemsData s order);
                   RouterPush ("/dashboard/orders/" ++ Order.id order);
                   SetIsSubmitting false ])
        end
    end.
Proof.
  intros Hitems.
  assert (Nat.eqb (length (orderItems s)) 0 = false) as Hlen.
  { apply Nat.eqb_neq. destruct (orderItems s); [contradiction|discriminate]. }
  unfold submit, handleSubmit. step_run. rewrite Hlen. step_run.
  destruct (ordersInsert be [orderData s]) as [order|orderError]; step_run.
  - destruct (orderItemsInsert be (orderItemsData s order)) as [[]|itemsError];
      step_run; reflexivity.
  - reflexivity.
Qed.

(** Whatever the data store answers, the handler returns normally, the
    submitting flag ends false and the draft cells are the ones it started
    from. *)
Lemma submit_always_settles (be : Backend) (s : FormState) :
  exit (submit be s) = Returned tt /\
  exists e, final (submit be s) = settled e s.
Proof.
  destruct (orderItems s) as [|item items] eqn:Hitems.
  - unfold submit, handleSubmit. rewrite Hitems. step_run. simpl.
    split; [reflexivity|]. eexists. reflexivity.
  - assert (orderItems s <> []) as Hne by (rewrite Hitems; discriminate).
    rewrite (submit_nonempty be s Hne).
    destruct (ordersInsert be [orderData s]) as [order|orderError];
      [destruct (orderItemsInsert be (orderItemsData s order)) as [u|itemsError]|];
      cbn [exit final]; (split; [reflexivity|eexists; reflexivity]).
Qed.

(** C2: with an empty item list the handler reaches the data store with no
    call at all (it does not even create the client), sets the error to
    "Please add at least one item to the order" and ends with the
    submitting flag false. *)
Theorem submit_empty_draft (be : Backend) (s : FormState)
    (Hempty : orderItems s = []) :
  trace (submit be s)
    = [ PreventDefault; SetIsSubmitting true; SetError None;
        SetError (Some "Please add at least one item to the order");
        SetIsSubmitting false ] /\
  storeCalls (trace (submit be s)) = [] /\
  ~ In CreateClient (trace (submit be s)) /\
  error (final (submit be s)) = Some "Please add at least one item to the order" /\
  isSubmitting (final (submit be s)) = false /\
  exit (submit be s) = Returned tt.
Proof.
  assert (submit be s
          = mkRun (Returned tt)
              (settled (Some "Please add at least one item to the order") s)
              [ PreventDefault; SetIsSubmitting true; SetError None;
                SetError (Some "Please add at least one item to the order");
                SetIsSubmitting false ]) as ->.
  { unfold submit, handleSubmit. rewrite Hempty. reflexivity. }
  cbn [trace final exit]. repeat split.
  simpl. intros H. repeat destruct H as [H|H]; try discriminate H. exact H.
Qed.

Lemma submit_empty_draft_witness :
  orderItems initialState = [] /\
  (trace (submit refusing initialState)
     = [ PreventDefault; SetIsSubmitting true; SetError None;
         SetError (Some "Please add at least one item to the order");
         SetIsSubmitting false ] /\
   storeCalls (trace (submit refusing initialState)) = [] /\
   ~ In CreateClient (trace (submit refusing initialState)) /\
   error (final (submit refusing initialState))
     = Some "Please add at least one item to the order" /\
   isSubmitting (final (submit refusing initialState)) = false /\
   exit (submit refusing initialState) = Returned tt).
Proof.
  split; [reflexivity|].
  exact (submit_empty_draft refusing initialState eq_refl).
Defined.

(** C3: for a non-empty draft the first call that reaches the data store
    inserts one order record whose customer_id is null for the walk-in
    sentinel and the chosen id otherwise, whose total_amount is
    [calculateTotal], whose status is "pending", whose payment_method is the
    chosen value or null when that is falsy, and whose notes are the trimmed
    notes or null when nothing is left after trimming. *)
Theorem submit_order_payload (be : Backend) (s : FormState)
    (Hitems : orderItems s <> []) :
  exists (d : OrderData.t) (rest : list Call),
    trace (submit be s)
      = [ PreventDefault; SetIsSubmitting true; SetError None; CreateClient;
          OrdersInsertSelectSingle [d] ] ++ rest /\
    (customerId s = "walk-in" -> OrderData.customer_id d = None) /\
    (customerId s <> "walk-in" -> OrderData.customer_id d = Some (customerId s)) /\
    OrderData.total_amount d = calculateTotal s /\
    OrderData.status d = "pending" /\
    (paymentMethod s = "" -> OrderData.payment_method d = None) /\
    (paymentMethod s <> "" -> OrderData.payment_method d = Some (paymentMethod s)) /\
    (Js.trim (notes s) = "" -> OrderData.notes d = None) /\
    (Js.trim (notes s) <> "" -> OrderData.notes d = Some (Js.trim (notes s))) /\
    (Js.blank (notes s) = true -> OrderData.notes d = None) /\
    (notes s = "  gift wrap  " -> OrderData.notes d = Some "gift wrap").
Proof.
  exists (orderData s).
  assert (exists rest, trace (submit be s) = opening s ++ rest) as [rest Hrest].
  { rewrite (submit_nonempty be s Hitems).
    destruct (ordersInsert be [orderData s]) as [order|orderError];
      [destruct (orderItemsInsert be (orderItemsData s order)) as [u|itemsError]|];
      cbn [trace]; eexists; reflexivity. }
  exists rest. split; [exact Hrest|].
  unfold orderData. cbn [OrderData.customer_id OrderData.total_amount OrderData.status
                         OrderData.payment_method OrderData.notes].
  repeat split.
  - intros ->. reflexivity.
  - intros Hne. apply String.eqb_neq in Hne. rewrite Hne. reflexivity.
  - intros ->. reflexivity.
  - apply orNull_nonempty.
  - intros ->. reflexivity.
  - apply orNull_nonempty.
  - intros Hblank. rewrite (trim_blank _ Hblank). reflexivity.
  - intros ->. reflexivity.
Qed.

Example giftDraft_order :
  orderData giftDraft
  = {| OrderData.customer_id := Some "c-7";
       OrderData.total_amount := 25%float;
       OrderData.status := "pending";
       OrderData.payment_method := Some "credit_card";
       OrderData.notes := Some "gift wrap" |}.
Proof. reflexivity. Qed.

Example sampleDraft_order :
  orderData sampleDraft
  = {| OrderData.customer_id := None;
       OrderData.total_amount := 25%float;
       OrderData.status := "pending";
       OrderData.payment_method := Some "cash";
       OrderData.notes := None |}.
Proof. reflexivity. Qed.

Lemma submit_order_payload_witness :
  orderItems giftDraft <> [] /\
  exists (d : OrderData.t) (rest : list Call),
    trace (submit accepting giftDraft)
      = [ PreventDefault; SetIsSubmitting true; SetError None; CreateClient;
          OrdersInsertSelectSingle [d] ] ++ rest /\
    (customerId giftDraft = "walk-in" -> OrderData.customer_id d = None) /\
    (customerId giftDraft <> "walk-in" -> OrderData.customer_id d = Some (customerId giftDraft)) /\
    OrderData.total_amount d = calculateTotal giftDraft /\
    OrderData.status d = "pending" /\
    (paymentMethod giftDraft = "" -> OrderData.payment_method d = None) /\
    (paymentMethod giftDraft <> "" ->
       OrderData.payment_method d = Some (paymentMethod giftDraft)) /\
    (Js.trim (notes giftDraft) = "" -> OrderData.notes d = None) /\
    (Js.trim (notes giftDraft) <> "" ->
       OrderData.notes d = Some (Js.trim (notes giftDraft))) /\
    (Js.blank (notes giftDraft) = true -> OrderData.notes d = None) /\
    (notes giftDraft = "  gift wrap  " -> OrderData.notes d = Some "gift wrap").
Proof.
  assert (orderItems giftDraft <> []) as Hne by (simpl; discriminate).
  split; [exact Hne|].
  exact (submit_order_payload accepting giftDraft Hne).
Defined.

(** C4: when the order insert succeeds, the handler goes on with one batch
    insert of one record per draft item, in the items' order; each record
    carries the id of the created order, the item's product id, quantity and
    unit price, and as total_price the item's own quantity times unit
    price. *)
Theorem submit_item_payloads (be : Backend) (s : FormState) (order : Order.t)
    (Hitems : orderItems s <> [])
    (Hcreated : ordersInsert be [orderData s] = Success order) :
  exists (records : list OrderItemData.t) (rest : list Call),
    trace (submit be s)
      = [ PreventDefault; SetIsSubmitting true; SetError None; CreateClient;
          OrdersInsertSelectSingle [orderData s]; OrderItemsInsert records ] ++ rest /\
    storeCalls (trace (submit be s))
      = [ OrdersInsertSelectSingle [orderData s]; OrderItemsInsert records ] /\
    length records = length (orderItems s) /\
    (forall i item, orderItems s !! i = Some item ->
       records !! i
       = Some {| OrderItemData.order_id := Order.id order;
                 OrderItemData.product_id := OrderItem.productId item;
                 OrderItemData.quantity := OrderItem.quantity item;
                 OrderItemData.unit_price := OrderItem.unitPrice item;
                 OrderItemData.total_price :=
                   (OrderItem.quantity item * OrderItem.unitPrice item)%float |}) /\
    OrderData.total_amount (orderData s) = calculateTotal s.
Proof.
  exists (orderItemsData s order).
  assert (exists rest,
            trace (submit be s)
              = (opening s ++ [OrderItemsInsert (orderItemsData s order)]) ++ rest /\
            storeCalls rest = []) as (rest & Htrace & Hrest).
  { rewrite (submit_nonempty be s Hitems), Hcreated.
    destruct (orderItemsInsert be (orderItemsData s order)) as [u|itemsError];
      cbn [trace]; eexists; split; reflexivity. }
  exists rest. split; [exact Htrace|]. split; [|split; [|split]].
  - rewrite Htrace. unfold storeCalls in *. rewrite List.filter_app, Hrest. reflexivity.
  - unfold orderItemsData. apply length_map.
  - intros i item Hitem. unfold orderItemsData.
    change (map ?f ?l) with (f <$> l). rewrite list_lookup_fmap, Hitem. reflexivity.
  - reflexivity.
Qed.

Example sampleDraft_item_records :
  orderItemsData sampleDraft {| Order.id := "o-1" |}
  = [ {| OrderItemData.order_id := "o-1"; OrderItemData.product_id := "A";
         OrderItemData.quantity := 2%float; OrderItemData.unit_price := 10%float;
         OrderItemData.total_price := 20%float |};
      {| OrderItemData.order_id := "o-1"; OrderItemData.product_id := "B";
         OrderItemData.quantity := 1%float; OrderItemData.unit_price := 5%float;
         OrderItemData.total_price := 5%float |} ].
Proof. reflexivity. Qed.

Lemma submit_item_payloads_witness :
  orderItems sampleDraft <> [] /\
  ordersInsert accepting [orderData sampleDraft] = Success {| Order.id := "o-1" |} /\
  exists (records : list OrderItemData.t) (rest : list Call),
    trace (submit accepting sampleDraft)
      = [ PreventDefault; SetIsSubmitting true; SetError None; CreateClient;
          OrdersInsertSelectSingle [orderData sampleDraft];
          OrderItemsInsert records ] ++ rest /\
    storeCalls (trace (submit accepting sampleDraft))
      = [ OrdersInsertSelectSingle [orderData sampleDraft]; OrderItemsInsert records ] /\
    length records = length (orderItems sampleDraft) /\
    (forall i item, orderItems sampleDraft !! i = Some item ->
       records !! i
       = Some {| OrderItemData.order_id := "o-1";
                 OrderItemData.product_id := OrderItem.productId item;
                 OrderItemData.quantity := OrderItem.quantity item;
                 OrderItemData.unit_price := OrderItem.unitPrice item;
                 OrderItemData.total_price :=
                   (OrderItem.quantity item * OrderItem.unitPrice item)%float |}) /\
    OrderData.total_amount (orderData sampleDraft) = calculateTotal sampleDraft.
Proof.
  assert (orderItems sampleDraft <> []) as Hne by (simpl; discriminate).
  split; [exact Hne|]. split; [reflexivity|].
  exact (submit_item_payloads accepting sampleDraft {| Order.id := "o-1" |} Hne eq_refl).
Defined.

(** C5: when the order insert fails, no item insert is attempted (the order
    insert is the only call that reaches the store, and the router is not
    called), the error cell holds the message of the store's error, or
    "An error occurred" when that error has no message (none, or an empty
    one), the submitting flag ends false and the draft cells are
    untouched. *)
Theorem submit_order_insert_fails (be : Backend) (s : FormState)
    (orderError : PostgrestError.t)
    (Hitems : orderItems s <> [])
    (Hfails : ordersInsert be [orderData s] = Failure orderError) :
  storeCalls (trace (submit be s)) = [ OrdersInsertSelectSingle [orderData s] ] /\
  (forall records, ~ In (OrderItemsInsert records) (trace (submit be s))) /\
  (forall href, ~ In (RouterPush href) (trace (submit be s))) /\
  (forall m, PostgrestError.message orderError = Some m -> m <> "" ->
     error (final (submit be s)) = Some m) /\
  (PostgrestError.message orderError = None \/ PostgrestError.message orderError = Some "" ->
     error (final (submit be s)) = Some "An error occurred") /\
  isSubmitting (final (submit be s)) = false /\
  customerId (final (submit be s)) = customerId s /\
  paymentMethod (final (submit be s)) = paymentMethod s /\
  notes (final (submit be s)) = notes s /\
  orderItems (final (submit be s)) = orderItems s.
Proof.
  rewrite (submit_nonempty be s Hitems), Hfails. cbn [trace final].
  split; [reflexivity|].
  split; [intros records H; simpl in H; repeat destruct H as [H|H]; try discriminate H; exact H|].
  split; [intros href H; simpl in H; repeat destruct H as [H|H]; try discriminate H; exact H|].
  split; [|split; [|repeat split]].
  - intros m Hm Hne. simpl. unfold shownMessage. rewrite Hm.
    rewrite (orElse_message m _ Hne). reflexivity.
  - intros [Hm|Hm]; simpl; unfold shownMessage; rewrite Hm; reflexivity.
Qed.

Lemma submit_order_insert_fails_witness :
  orderItems giftDraft <> [] /\
  ordersInsert refusing [orderData giftDraft]
    = Failure {| PostgrestError.message := Some "permission denied" |} /\
  error (final (submit refusing giftDraft)) = Some "permission denied" /\
  storeCalls (trace (submit refusing giftDraft))
    = [ OrdersInsertSelectSingle [orderData giftDraft] ] /\
  isSubmitting (final (submit refusing giftDraft)) = false /\
  orderItems (final (submit refusing giftDraft)) = orderItems giftDraft.
Proof.
  assert (orderItems giftDraft <> []) as Hne by (simpl; discriminate).
  split; [exact Hne|]. split; [reflexivity|].
  pose proof (submit_order_insert_fails refusing giftDraft
                {| PostgrestError.message := Some "permission denied" |} Hne eq_refl)
    as (Hcalls & _ & _ & Hmsg & _ & Hflag & _ & _ & _ & Hdraft).
  split; [apply (Hmsg "permission denied"); [reflexivity|discriminate]|].
  split; [exact Hcalls|]. split; [exact Hflag|exact Hdraft].
Defined.

(** C6: when the order insert succeeds and the item insert fails, the
    error cell holds the message of the item-insert error, or
    "An error occurred" when that error has no message (none, or an empty
    one), exactly as for a failed order insert; the two inserts are the only
    calls that reach the store (no delete of the created order is issued),
    the router is not called and the submitting flag ends false. *)
Theorem submit_item_insert_fails (be : Backend) (s : FormState)
    (order : Order.t) (itemsError : PostgrestError.t)
    (Hitems : orderItems s <> [])
    (Hcreated : ordersInsert be [orderData s] = Success order)
    (Hfails : orderItemsInsert be (orderItemsData s order) = Failure itemsError) :
  storeCalls (trace (submit be s))
    = [ OrdersInsertSelectSingle [orderData s]; OrderItemsInsert (orderItemsData s order) ] /\
  (forall id, ~ In (OrdersDelete id) (trace (submit be s))) /\
  (forall href, ~ In (RouterPush href) (trace (submit be s))) /\
  error (final (submit be s))
    = Some (Js.orElse (PostgrestError.message itemsError) "An error occurred") /\
  (forall m, PostgrestError.message itemsError = Some m -> m <> "" ->
     error (final (submit be s)) = Some m) /\
  (PostgrestError.message itemsError = None \/ PostgrestError.message itemsError = Some "" ->
     error (final (submit be s)) = Some "An error occurred") /\
  isSubmitting (final (submit be s)) = false.
Proof.
  rewrite (submit_nonempty be s Hitems), Hcreated, Hfails. cbn [trace final].
  split; [reflexivity|].
  split; [intros id H; simpl in H; repeat destruct H as [H|H]; try discriminate H; exact H|].
  split; [intros href H; simpl in H; repeat destruct H as [H|H]; try discriminate H; exact H|].
  split; [reflexivity|]. split; [|split; [|reflexivity]].
  - intros m Hm Hne. simpl. unfold shownMessage. rewrite Hm.
    rewrite (orElse_message m _ Hne). reflexivity.
  - intros [Hm|Hm]; simpl; unfold shownMessage; rewrite Hm; reflexivity.
Qed.

Lemma submit_item_insert_fails_witness :
  orderItems sampleDraft <> [] /\
  ordersInsert halfway [orderData sampleDraft] = Success {| Order.id := "o-1" |} /\
  orderItemsInsert halfway (orderItemsData sampleDraft {| Order.id := "o-1" |})
    = Failure {| PostgrestError.message := Some "insert failed" |} /\
  error (final (submit halfway sampleDraft)) = Some "insert failed" /\
  (forall id, ~ In (OrdersDelete id) (trace (submit halfway sampleDraft))) /\
  (forall href, ~ In (RouterPush href) (trace (submit halfway sampleDraft))) /\
  isSubmitting (final (submit halfway sampleDraft)) = false /\
  ordersInsert wordless [orderData sampleDraft] = Success {| Order.id := "o-1" |} /\
  orderItemsInsert wordless (orderItemsData sampleDraft {| Order.id := "o-1" |})
    = Failure {| PostgrestError.message := None |} /\
  error (final (submit wordless sampleDraft)) = Some "An error occurred".
Proof.
  assert (orderItems sampleDraft <> []) as Hne by (simpl; discriminate).
  split; [exact Hne|]. split; [reflexivity|]. split; [reflexivity|].
  pose proof (submit_item_insert_fails halfway sampleDraft {| Order.id := "o-1" |}
                {| PostgrestError.message := Some "insert failed" |} Hne eq_refl eq_refl)
    as (_ & Hdel & Hnav & _ & Hmsg & _ & Hflag).
  pose proof (submit_item_insert_fails wordless sampleDraft {| Order.id := "o-1" |}
                {| PostgrestError.message := None |} Hne eq_refl eq_refl)
    as (_ & _ & _ & _ & _ & Hfallback & _).
  split; [apply (Hmsg "insert failed"); [reflexivity|discriminate]|].
  split; [exact Hdel|]. split; [exact Hnav|]. split; [exact Hflag|].
  split; [reflexivity|]. split; [reflexivity|].
  apply Hfallback. left. reflexivity.
Defined.

(** When both inserts succeed the handler navigates to the new order. *)
Lemma submit_succeeds (be : Backend) (s : FormState) (order : Order.t) :
  orderItems s <> [] ->
  ordersInsert be [orderData s] = Success order ->
  orderItemsInsert be (orderItemsData s order) = Success tt ->
  submit be s
  = mkRun (Returned tt) (settled None s)
      (opening s ++
         [ OrderItemsInsert (orderItemsData s order);
           RouterPush ("/dashboard/orders/" ++ Order.id order);
           SetIsSubmitting false ]).
Proof.
  intros Hitems Hcreated Hstored.
  rewrite (submit_nonempty be s Hitems), Hcreated, Hstored. reflexivity.
Qed.

(** * Stock *)

(** The product an item refers to is the first entry of the catalog with
    the item's productId: that is the entry [find] returns. *)
Lemma find_first_match (products before after : list Product.t)
    (product : Product.t) (v : string) :
  products = before ++ product :: after ->
  Product.id product = v ->
  (forall p, In p before -> Product.id p <> v) ->
  Js.find (fun p => String.eqb (Product.id p) v) products = Some product.
Proof.
  intros -> Hid Hnone. unfold Js.find.
  induction before as [|a before IH]; simpl.
  - rewrite Hid, String.eqb_refl. reflexivity.
  - destruct (String.eqb (Product.id a) v) eqn:E.
    + apply String.eqb_eq in E. exfalso. apply (Hnone a); [left; reflexivity|exact E].
    + apply IH. intros p Hin. apply Hnone. right. exact Hin.
Qed.

(** In a catalog that differs in stock only, the referenced product sits at
    the same place and differs from the original in its stock at most. *)
Lemma first_match_transfers (ps ps' before after : list Product.t)
    (product : Product.t) (v : string) :
  Forall2 sameButStock ps ps' ->
  ps = before ++ product :: after ->
  Product.id product = v ->
  (forall p, In p before -> Product.id p <> v) ->
  exists before' product' after',
    ps' = before' ++ product' :: after' /\
    sameButStock product product' /\
    Product.id product' = v /\
    (forall p, In p before' -> Product.id p <> v).
Proof.
  intros Hsame -> Hid Hnone.
  apply Forall2_app_inv_l in Hsame as (before' & rest' & Hb & Hr & ->).
  apply Forall2_cons_inv_l in Hr as (product' & after' & Hp & _ & ->).
  exists before', product', after'. split; [reflexivity|]. split; [exact Hp|].
  split; [destruct Hp as [Hpid _]; congruence|].
  clear -Hb Hnone.
  induction Hb as [|x y l k Hxy _ IH]; intros p Hin; [destruct Hin|].
  destruct Hin as [<-|Hin].
  - destruct Hxy as [Hpid _]. rewrite <- Hpid. apply Hnone. left. reflexivity.
  - apply IH; [|exact Hin]. intros q Hq. apply Hnone. right. exact Hq.
Qed.

(** The row a render shows for an item whose referenced product is known. *)
Lemma rendered_row (props : OrderFormProps) (s : FormState) (i : nat)
    (item : OrderItem.t) (before after : list Product.t) (product : Product.t) :
  orderItems s !! i = Some item ->
  products props = before ++ product :: after ->
  Product.id product = OrderItem.productId item ->
  (forall p, In p before -> Product.id p <> OrderItem.productId item) ->
  rows (OrderForm props s) !! i
  = Some {| selected := OrderItem.productId item;
            quantityInput := OrderItem.quantity item;
            unitPriceInput := OrderItem.unitPrice item;
            rowTotal := (OrderItem.quantity item * OrderItem.unitPrice item)%float;
            stockNotice :=
              if PrimFloat.ltb (Product.stock_quantity product) (OrderItem.quantity item)
              then Some (Product.stock_quantity product) else None |}.
Proof.
  intros Hitem Hcat Hid Hnone. unfold OrderForm. cbn [rows].
  change (map ?f ?l) with (f <$> l). rewrite list_lookup_fmap, Hitem. simpl.
  unfold renderRow.
  rewrite (find_first_match _ _ _ _ _ Hcat Hid Hnone). reflexivity.
Qed.

(** C9: two renders whose catalogs differ in stock quantities only have the
    same submit handler, with the same run against every data store (same
    guard, payloads, inserts and navigation), and the same disabled state of
    the submit button; a draft with items goes through to the navigation
    whatever the stock.  Stock shows in the rows' "Only n in stock" line
    only: the row a render shows for an item carries that line exactly when
    the stock of the product the item refers to (the first catalog entry
    with its productId) is below the item's quantity, it carries none when
    the catalog has no such product, and in the render with the other
    catalog the same row differs in that line at most, which is then decided
    by the other catalog's stock. *)
Theorem stock_does_not_block (props props' : OrderFormProps) (s : FormState)
    (Hstock : differInStockOnly props props') :
  onSubmit (OrderForm props s) = onSubmit (OrderForm props' s) /\
  (forall be, run be (onSubmit (OrderForm props s)) s
              = run be (onSubmit (OrderForm props' s)) s) /\
  submitDisabled (OrderForm props s) = submitDisabled (OrderForm props' s) /\
  errorText (OrderForm props s) = errorText (OrderForm props' s) /\
  total (OrderForm props s) = total (OrderForm props' s) /\
  map withoutStockNotice (rows (OrderForm props s))
    = map withoutStockNotice (rows (OrderForm props' s)) /\
  (forall be order,
     orderItems s <> [] ->
     ordersInsert be [orderData s] = Success order ->
     orderItemsInsert be (orderItemsData s order) = Success tt ->
     In (RouterPush ("/dashboard/orders/" ++ Order.id order))
        (trace (run be (onSubmit (OrderForm props s)) s))) /\
  (forall item product,
     Js.find (fun p => String.eqb (Product.id p) (OrderItem.productId item)) (products props)
       = Some product ->
     PrimFloat.ltb (Product.stock_quantity product) (OrderItem.quantity item) = true ->
     stockNotice (renderRow (products props) item) = Some (Product.stock_quantity product)) /\
  (forall i item before product after,
     orderItems s !! i = Some item ->
     products props = before ++ product :: after ->
     Product.id product = OrderItem.productId item ->
     (forall p, In p before -> Product.id p <> OrderItem.productId item) ->
     rows (OrderForm props s) !! i
     = Some {| selected := OrderItem.productId item;
               quantityInput := OrderItem.quantity item;
               unitPriceInput := OrderItem.unitPrice item;
               rowTotal := (OrderItem.quantity item * OrderItem.unitPrice item)%float;
               stockNotice :=
                 if PrimFloat.ltb (Product.stock_quantity product) (OrderItem.quantity item)
                 then Some (Product.stock_quantity product) else None |} /\
     exists product',
       In product' (products props') /\ sameButStock product product' /\
       rows (OrderForm props' s) !! i
       = Some {| selected := OrderItem.productId item;
                 quantityInput := OrderItem.quantity item;
                 unitPriceInput := OrderItem.unitPrice item;
                 rowTotal := (OrderItem.quantity item * OrderItem.unitPrice item)%float;
                 stockNotice :=
                   if PrimFloat.ltb (Product.stock_quantity product')
                                    (OrderItem.quantity item)
                   then Some (Product.stock_quantity product') else None |}) /\
  (forall i item,
     orderItems s !! i = Some item ->
     (forall p, In p (products props) -> Product.id p <> OrderItem.productId item) ->
     rows (OrderForm props s) !! i
     = Some {| selected := OrderItem.productId item;
               quantityInput := OrderItem.quantity item;
               unitPriceInput := OrderItem.unitPrice item;
               rowTotal := (OrderItem.quantity item * OrderItem.unitPrice item)%float;
               stockNotice := None |}).
Proof.
  split; [reflexivity|]. split; [reflexivity|]. split; [reflexivity|].
  split; [reflexivity|]. split; [reflexivity|].
  split; [|split; [|split; [|split]]].
  - unfold OrderForm. cbn [rows]. rewrite !map_map. reflexivity.
  - intros be order Hitems Hcreated Hstored. cbn [OrderForm onSubmit].
    change (run be (handleSubmit s) s) with (submit be s).
    rewrite (submit_succeeds be s order Hitems Hcreated Hstored).
    cbn [trace]. apply in_or_app. right. simpl. auto.
  - intros item product Hfind Hbelow. unfold renderRow. cbn [stockNotice].
    rewrite Hfind, Hbelow. reflexivity.
  - intros i item before product after Hitem Hcat Hid Hnone.
    split; [exact (rendered_row props s i item before after product Hitem Hcat Hid Hnone)|].
    destruct Hstock as [_ Hsame].
    destruct (first_match_transfers _ _ _ _ _ _ Hsame Hcat Hid Hnone)
      as (before' & product' & after' & Hcat' & Hp & Hid' & Hnone').
    exists product'. split; [rewrite Hcat'; apply in_or_app; right; left; reflexivity|].
    split; [exact Hp|].
    exact (rendered_row props' s i item before' after' product' Hitem Hcat' Hid' Hnone').
  - intros i item Hitem Hnone. unfold OrderForm. cbn [rows].
    change (map ?f ?l) with (f <$> l). rewrite list_lookup_fmap, Hitem. simpl.
    unfold renderRow. rewrite (find_absent _ _ Hnone). reflexivity.
Qed.

Example overDraft_is_flagged_and_submitted :
  map stockNotice (rows (OrderForm {| customers := []; products := sampleCatalog |} overDraft))
    = [ Some 3%float ] /\
  map stockNotice (rows (OrderForm {| customers := []; products := restocked |} overDraft))
    = [ None ] /\
  submitDisabled (OrderForm {| customers := []; products := sampleCatalog |} overDraft) = false /\
  storeCalls (trace (submit accepting overDraft))
    = [ OrdersInsertSelectSingle [orderData overDraft];
        OrderItemsInsert (orderItemsData overDraft {| Order.id := "o-1" |}) ] /\
  In (RouterPush "/dashboard/orders/o-1") (trace (submit accepting overDraft)).
Proof. repeat split. simpl. auto 10. Qed.

Lemma stock_does_not_block_witness :
  differInStockOnly {| customers := []; products := sampleCatalog |}
                    {| customers := []; products := restocked |} /\
  (forall be,
     run be (onSubmit (OrderForm {| customers := []; products := sampleCatalog |} overDraft))
         overDraft
     = run be (onSubmit (OrderForm {| customers := []; products := restocked |} overDraft))
         overDraft) /\
  submitDisabled (OrderForm {| customers := []; products := sampleCatalog |} overDraft)
    = submitDisabled (OrderForm {| customers := []; products := restocked |} overDraft) /\
  In (RouterPush "/dashboard/orders/o-1")
     (trace (run accepting
               (onSubmit (OrderForm {| customers := []; products := sampleCatalog |} overDraft))
               overDraft)) /\
  rows (OrderForm {| customers := []; products := sampleCatalog |} overDraft) !! 0
    = Some {| selected := "A"; quantityInput := 5%float; unitPriceInput := 10%float;
              rowTotal := 50%float; stockNotice := Some 3%float |} /\
  rows (OrderForm {| customers := []; products := restocked |} overDraft) !! 0
    = Some {| selected := "A"; quantityInput := 5%float; unitPriceInput := 10%float;
              rowTotal := 50%float; stockNotice := None |}.
Proof.
  assert (differInStockOnly {| customers := []; products := sampleCatalog |}
                            {| customers := []; products := restocked |}) as Hdiff.
  { split; [reflexivity|]. simpl.
    repeat (constructor; [repeat split|]). constructor. }
  assert (differInStockOnly {| customers := []; products := restocked |}
                            {| customers := []; products := sampleCatalog |}) as Hback.
  { split; [reflexivity|]. simpl.
    repeat (constructor; [repeat split|]). constructor. }
  assert (orderItems overDraft <> []) as Hne by (simpl; discriminate).
  pose proof (stock_does_not_block _ _ overDraft Hdiff)
    as (_ & Hrun & Hdisabled & _ & _ & _ & Hgo & _ & Hrow & _).
  pose proof (stock_does_not_block _ _ overDraft Hback)
    as (_ & _ & _ & _ & _ & _ & _ & _ & Hrow' & _).
  split; [exact Hdiff|]. split; [exact Hrun|]. split; [exact Hdisabled|].
  split; [exact (Hgo accepting {| Order.id := "o-1" |} Hne eq_refl eq_refl)|].
  split.
  - refine (proj1 (Hrow 0 _ [] _ _ eq_refl eq_refl eq_refl _)).
    intros p Hin. destruct Hin.
  - refine (proj1 (Hrow' 0 _ [] _ _ eq_refl eq_refl eq_refl _)).
    intros p Hin. destruct Hin.
Defined.

(** * More on the item list *)

Lemma delete_out_of_range {A : Type} (l : list A) (index : nat) :
  length l <= index -> delete index l = l.
Proof.
  intros Hge. rewrite delete_take_drop.
  rewrite take_ge by exact Hge. rewrite drop_ge by lia. apply app_nil_r.
Qed.

Lemma length_delete_le {A : Type} (l : list A) (index : nat) :
  length (delete index l) <= length l.
Proof. apply sublist_length, sublist_delete. Qed.

Lemma setOrderItems_twice (items items' : list OrderItem.t) (s : FormState) :
  setOrderItems items (setOrderItems items' s) = setOrderItems items s.
Proof. reflexivity. Qed.

(** Whenever an update is defined, it wrote one row of the list it found, or
    it wrote nothing at all. *)
Lemma updateOrderItem_shape (products : list Product.t) (index : nat)
    (field : Field.t) (value : Value) (s s' : FormState) :
  updateOrderItem products index field value s = Some s' ->
  s' = s \/
  exists item item',
    orderItems s !! index = Some item /\
    s' = setOrderItems (<[index := item']> (orderItems s)) s /\
    (OrderItem.productId item' = OrderItem.productId item \/
     In (OrderItem.productId item') (map Product.id products)) /\
    (OrderItem.quantity item' = OrderItem.quantity item \/
     (field = Field.quantity /\ value = Num (OrderItem.quantity item'))).
Proof.
  unfold updateOrderItem. intros H.
  destruct field, value as [v|v]; simpl in H.
  - destruct (Js.find _ products) as [product|] eqn:Hfind.
    + destruct (orderItems s !! index) as [item|] eqn:Hitem; [|discriminate].
      injection H as <-. right. eexists item, _.
      split; [reflexivity|]. split; [reflexivity|]. simpl. split; [|left; reflexivity].
      right. apply find_some in Hfind as [Hin Heq]. apply String.eqb_eq in Heq.
      subst v. apply in_map. exact Hin.
    + injection H as <-. left. apply setOrderItems_same.
  - destruct (orderItems s !! index); discriminate.
  - destruct (orderItems s !! index); discriminate.
  - destruct (orderItems s !! index) as [item|] eqn:Hitem; [|discriminate].
    injection H as <-. right. eexists item, _.
    split; [reflexivity|]. split; [reflexivity|]. simpl.
    split; [left; reflexivity|right; split; reflexivity].
  - destruct (orderItems s !! index); discriminate.
  - destruct (orderItems s !! index) as [item|] eqn:Hitem; [|discriminate].
    injection H as <-. right. eexists item, _.
    split; [reflexivity|]. split; [reflexivity|]. simpl.
    split; left; reflexivity.
Qed.

Lemma updateOrderItem_length (products : list Product.t) (index : nat)
    (field : Field.t) (value : Value) (s s' : FormState) :
  updateOrderItem products index field value s = Some s' ->
  length (orderItems s') = length (orderItems s).
Proof.
  intros H. apply updateOrderItem_shape in H as [->|(item & item' & _ & -> & _)];
    [reflexivity|].
  simpl. apply length_insert.
Qed.

(** X1: adding a row and then removing the last row gives back the state
    one started from. *)
Theorem add_then_remove_last (s : FormState) :
  removeOrderItem (length (orderItems s)) (addOrderItem s) = s.
Proof.
  unfold removeOrderItem, addOrderItem. rewrite setOrderItems_twice.
  cbn [orderItems setOrderItems]. rewrite filter_out_index.
  rewrite (delete_middle (orderItems s) []), app_nil_r.
  apply setOrderItems_same.
Qed.

(** X2: removing at an index past the last row changes nothing. *)
Theorem removeOrderItem_out_of_range (index : nat) (s : FormState)
    (Hpast : length (orderItems s) <= index) :
  removeOrderItem index s = s.
Proof.
  unfold removeOrderItem. rewrite filter_out_index.
  rewrite delete_out_of_range by exact Hpast. apply setOrderItems_same.
Qed.

Lemma removeOrderItem_out_of_range_witness :
  length (orderItems sampleDraft) <= 2 /\ removeOrderItem 2 sampleDraft = sampleDraft.
Proof.
  assert (length (orderItems sampleDraft) <= 2) as Hpast by (simpl; lia).
  split; [exact Hpast|].
  exact (removeOrderItem_out_of_range 2 sampleDraft Hpast).
Defined.

Lemma dispatch_frame (products : list Product.t) (a : Action) (s s' : FormState) :
  dispatch products a s = Some s' ->
  customerId s' = customerId s /\ paymentMethod s' = paymentMethod s /\
  notes s' = notes s /\ isSubmitting s' = isSubmitting s /\ error s' = error s.
Proof.
  destruct a as [|index|index field value]; simpl; intros H.
  - injection H as <-. repeat split.
  - injection H as <-. repeat split.
  - apply updateOrderItem_shape in H as [->|(item & item' & _ & -> & _)]; repeat split.
Qed.

(** X3: no sequence of edits of the item list touches the other cells: the
    customer, the payment method, the notes, the submitting flag and the
    error are the ones before. *)
Theorem actions_change_items_only
    (products : list Product.t) (actions : list Action) (s s' : FormState)
    (Hrun : runActions products actions s = Some s') :
  customerId s' = customerId s /\ paymentMethod s' = paymentMethod s /\
  notes s' = notes s /\ isSubmitting s' = isSubmitting s /\ error s' = error s.
Proof.
  revert s Hrun. induction actions as [|a rest IH]; intros s Hrun; simpl in Hrun.
  - injection Hrun as <-. repeat split.
  - destruct (dispatch products a s) as [s1|] eqn:Hstep; [|discriminate].
    destruct (dispatch_frame products a s s1 Hstep) as (Hc & Hp & Hn & Hf & He).
    destruct (IH s1 Hrun) as (Hc' & Hp' & Hn' & Hf' & He').
    repeat split; congruence.
Qed.

Lemma actions_change_items_only_witness :
  exists s',
    runActions sampleCatalog sampleActions giftDraft = Some s' /\
    length (orderItems s') = 4 /\
    customerId s' = "c-7" /\ notes s' = "  gift wrap  ".
Proof.
  destruct (runActions sampleCatalog sampleActions giftDraft) as [s'|] eqn:Hrun;
    [|discriminate Hrun].
  exists s'. split; [reflexivity|].
  pose proof (actions_change_items_only sampleCatalog sampleActions giftDraft s' Hrun)
    as (Hc & _ & Hn & _).
  split; [injection Hrun as <-; reflexivity|].
  split; [exact Hc|exact Hn].
Defined.

(** X4: an update that is carried out keeps the number of rows and leaves
    every row but the one at its index as it was, whatever the field and the
    value. *)
Theorem updateOrderItem_keeps_other_rows
    (products : list Product.t) (index : nat) (field : Field.t) (value : Value)
    (s s' : FormState)
    (Hdone : updateOrderItem products index field value s = Some s') :
  length (orderItems s') = length (orderItems s) /\
  (forall j, j <> index -> orderItems s' !! j = orderItems s !! j).
Proof.
  split; [exact (updateOrderItem_length _ _ _ _ _ _ Hdone)|].
  intros j Hj.
  apply updateOrderItem_shape in Hdone as [->|(item & item' & _ & -> & _)];
    [reflexivity|].
  simpl. apply list_lookup_insert_ne. congruence.
Qed.

Lemma updateOrderItem_keeps_other_rows_witness :
  updateOrderItem sampleCatalog 1 Field.quantity (Num 7%float) sampleDraft
    = Some (setOrderItems
              [ {| OrderItem.productId := "A"; OrderItem.quantity := 2%float;
                   OrderItem.unitPrice := 10%float |};
                {| OrderItem.productId := "B"; OrderItem.quantity := 7%float;
                   OrderItem.unitPrice := 5%float |} ] sampleDraft) /\
  forall j, j <> 1 ->
    [ {| OrderItem.productId := "A"; OrderItem.quantity := 2%float;
         OrderItem.unitPrice := 10%float |};
      {| OrderItem.productId := "B"; OrderItem.quantity := 7%float;
         OrderItem.unitPrice := 5%float |} ] !! j = orderItems sampleDraft !! j.
Proof.
  split; [reflexivity|].
  exact (proj2 (updateOrderItem_keeps_other_rows sampleCatalog 1 Field.quantity
                  (Num 7%float) sampleDraft _ eq_refl)).
Defined.

Lemma operate_length (products : list Product.t) (c : Control) (s s' : FormState) :
  operate products c s = Some s' ->
  length (orderItems s') <=
    length (orderItems s) + match c with AddItemButton => 1 | _ => 0 end.
Proof.
  destruct c as [|index value|index parsed|index parsed|index]; simpl; intros H.
  - injection H as <-. simpl. rewrite length_app. simpl. lia.
  - rewrite (updateOrderItem_length _ _ _ _ _ _ H). lia.
  - rewrite (updateOrderItem_length _ _ _ _ _ _ H). lia.
  - rewrite (updateOrderItem_length _ _ _ _ _ _ H). lia.
  - injection H as <-. simpl. rewrite filter_out_index.
    pose proof (length_delete_le (orderItems s) index). lia.
Qed.

(** X5: through the rendered controls the list never holds more rows than
    the add button was clicked: in every state reached from the empty draft
    by the add and remove buttons, the product select and the two inputs of
    existing rows, the number of rows is at most the number of clicks on the
    add button. *)
Theorem rows_bounded_by_adds
    (products : list Product.t) (controls : list Control) (s : FormState)
    (Hrun : runControls products controls initialState = Some s) :
  length (orderItems s) <= addClicks controls.
Proof.
  assert (forall s0 s1, runControls products controls s0 = Some s1 ->
            length (orderItems s1) <= length (orderItems s0) + addClicks controls)
    as Hgen.
  { clear s Hrun. induction controls as [|c rest IH]; intros s0 s1 H; simpl in H.
    - injection H as <-. simpl. lia.
    - destruct (operate products c s0) as [s'|] eqn:Hstep; [|discriminate].
      pose proof (operate_length products c s0 s' Hstep) as Hlen.
      pose proof (IH s' s1 H) as Hrest.
      destruct c; simpl in *; lia. }
  exact (Hgen initialState s Hrun).
Qed.

Lemma rows_bounded_by_adds_witness :
  runControls sampleCatalog sampleControls initialState
    = Some (setOrderItems
              [ {| OrderItem.productId := ""; OrderItem.quantity := 4%float;
                   OrderItem.unitPrice := 0%float |} ] initialState) /\
  length [ {| OrderItem.productId := ""; OrderItem.quantity := 4%float;
              OrderItem.unitPrice := 0%float |} ] <= addClicks sampleControls.
Proof.
  split; [reflexivity|].
  exact (rows_bounded_by_adds sampleCatalog sampleControls _ eq_refl).
Defined.

Lemma operate_blankOrListed (products : list Product.t) (c : Control) (s s' : FormState) :
  operate products c s = Some s' ->
  Forall (blankOrListed products) (orderItems s) ->
  Forall (blankOrListed products) (orderItems s').
Proof.
  assert (forall index field value,
            updateOrderItem products index field value s = Some s' ->
            Forall (blankOrListed products) (orderItems s) ->
            Forall (blankOrListed products) (orderItems s')) as Hupdate.
  { intros index field value H Hinv. apply updateOrderItem_shape in H
      as [->|(item & item' & Hitem & -> & Hid & _)]; [exact Hinv|].
    simpl. apply Forall_insert; [exact Hinv|].
    destruct Hid as [Hsame|Hlisted]; [|right; exact Hlisted].
    unfold blankOrListed. rewrite Hsame.
    exact (proj1 (Forall_lookup _ _) Hinv index item Hitem). }
  destruct c as [|index value|index parsed|index parsed|index]; simpl; intros H Hinv.
  - injection H as <-. simpl. apply Forall_app. split; [exact Hinv|].
    constructor; [left; reflexivity|constructor].
  - exact (Hupdate _ _ _ H Hinv).
  - exact (Hupdate _ _ _ H Hinv).
  - exact (Hupdate _ _ _ H Hinv).
  - injection H as <-. simpl. rewrite filter_out_index. apply Forall_delete. exact Hinv.
Qed.

(** X6: through the rendered controls a row never names an unknown
    product: in every state reached from the empty draft by the add and
    remove buttons, the product select and the two inputs of existing rows,
    each row's productId is either the empty id of a fresh row or the id of
    a product of the catalog; so is every product_id of the records the
    submit handler builds for the item insert. *)
Theorem rows_name_listed_products
    (products : list Product.t) (controls : list Control) (s : FormState)
    (Hrun : runControls products controls initialState = Some s) :
  Forall (blankOrListed products) (orderItems s) /\
  (forall order record, In record (orderItemsData s order) ->
     OrderItemData.product_id record = "" \/
     In (OrderItemData.product_id record) (map Product.id products)).
Proof.
  assert (Forall (blankOrListed products) (orderItems s)) as Hinv.
  { assert (forall s0 s1, runControls products controls s0 = Some s1 ->
              Forall (blankOrListed products) (orderItems s0) ->
              Forall (blankOrListed products) (orderItems s1)) as Hgen.
    { clear s Hrun. induction controls as [|c rest IH]; intros s0 s1 H Hinv; simpl in H.
      - injection H as <-. exact Hinv.
      - destruct (operate products c s0) as [s'|] eqn:Hstep; [|discriminate].
        apply (IH s' s1 H). exact (operate_blankOrListed products c s0 s' Hstep Hinv). }
    apply (Hgen initialState s Hrun). constructor. }
  split; [exact Hinv|].
  intros order record Hin. unfold orderItemsData in Hin.
  apply in_map_iff in Hin as (item & <- & Hitem). simpl.
  apply (proj1 (List.Forall_forall _ _) Hinv item Hitem).
Qed.

Lemma rows_name_listed_products_witness :
  runControls sampleCatalog listingControls initialState
    = Some (setOrderItems
              [ {| OrderItem.productId := "B"; OrderItem.quantity := 1%float;
                   OrderItem.unitPrice := 5%float |};
                {| OrderItem.productId := ""; OrderItem.quantity := 1%float;
                   OrderItem.unitPrice := 0%float |} ] initialState) /\
  Forall (blankOrListed sampleCatalog)
    [ {| OrderItem.productId := "B"; OrderItem.quantity := 1%float;
         OrderItem.unitPrice := 5%float |};
      {| OrderItem.productId := ""; OrderItem.quantity := 1%float;
         OrderItem.unitPrice := 0%float |} ].
Proof.
  split; [reflexivity|].
  exact (proj1 (rows_name_listed_products sampleCatalog listingControls _ eq_refl)).
Defined.

(** * The inputs of a row *)

Lemma numOr_truthy (x d : number) :
  Js.truthyNumber d = true -> Js.truthyNumber (Js.numOr x d) = true.
Proof.
  intros Hd. unfold Js.numOr. destruct (Js.truthyNumber x) eqn:Hx; assumption.
Qed.

Lemma operate_quantities (products : list Product.t) (c : Control) (s s' : FormState) :
  operate products c s = Some s' ->
  Forall (fun item => Js.truthyNumber (OrderItem.quantity item) = true) (orderItems s) ->
  Forall (fun item => Js.truthyNumber (OrderItem.quantity item) = true) (orderItems s').
Proof.
  destruct c as [|index value|index parsed|index parsed|index]; simpl; intros H Hinv.
  - injection H as <-. simpl. apply Forall_app. split; [exact Hinv|].
    constructor; [reflexivity|constructor].
  - unfold onProductChange in H. apply updateOrderItem_shape in H
      as [->|(item & item' & Hitem & -> & _ & [Hq|[Hf _]])];
      [exact Hinv| |discriminate Hf].
    simpl. apply Forall_insert; [exact Hinv|]. rewrite Hq.
    exact (proj1 (Forall_lookup _ _) Hinv index item Hitem).
  - unfold onQuantityChange in H. apply updateOrderItem_shape in H
      as [->|(item & item' & Hitem & -> & _ & [Hq|[_ Hv]])]; [exact Hinv| |].
    + simpl. apply Forall_insert; [exact Hinv|]. rewrite Hq.
      exact (proj1 (Forall_lookup _ _) Hinv index item Hitem).
    + simpl. apply Forall_insert; [exact Hinv|].
      injection Hv as <-. apply numOr_truthy. reflexivity.
  - unfold onUnitPriceChange in H. apply updateOrderItem_shape in H
      as [->|(item & item' & Hitem & -> & _ & [Hq|[Hf _]])];
      [exact Hinv| |discriminate Hf].
    simpl. apply Forall_insert; [exact Hinv|]. rewrite Hq.
    exact (proj1 (Forall_lookup _ _) Hinv index item Hitem).
  - injection H as <-. simpl. rewrite filter_out_index. apply Forall_delete. exact Hinv.
Qed.

(** X7: through the rendered controls no row ever gets a quantity of zero or
    NaN: in every state reached from the empty draft by the add and remove
    buttons, the product select and the two inputs, the quantity of each row
    is a truthy number. *)
Theorem quantities_stay_truthy
    (products : list Product.t) (controls : list Control) (s : FormState)
    (Hrun : runControls products controls initialState = Some s) :
  Forall (fun item => PrimFloat.is_nan (OrderItem.quantity item) = false /\
                      PrimFloat.is_zero (OrderItem.quantity item) = false)
         (orderItems s).
Proof.
  assert (forall s0 s1, runControls products controls s0 = Some s1 ->
            Forall (fun item => Js.truthyNumber (OrderItem.quantity item) = true)
                   (orderItems s0) ->
            Forall (fun item => Js.truthyNumber (OrderItem.quantity item) = true)
                   (orderItems s1)) as Hgen.
  { clear s Hrun. induction controls as [|c rest IH]; intros s0 s1 H Hinv; simpl in H.
    - injection H as <-. exact Hinv.
    - destruct (operate products c s0) as [s'|] eqn:Hstep; [|discriminate].
      apply (IH s' s1 H). exact (operate_quantities products c s0 s' Hstep Hinv). }
  assert (Forall (fun item => Js.truthyNumber (OrderItem.quantity item) = true)
                 (orderItems s)) as Hinv.
  { apply (Hgen initialState s Hrun). constructor. }
  eapply List.Forall_impl; [|exact Hinv].
  intros item Htruthy. unfold Js.truthyNumber in Htruthy.
  apply negb_true_iff, orb_false_iff in Htruthy. exact Htruthy.
Qed.

Lemma quantities_stay_truthy_witness :
  runControls sampleCatalog sampleControls initialState
    = Some (setOrderItems
              [ {| OrderItem.productId := ""; OrderItem.quantity := 4%float;
                   OrderItem.unitPrice := 0%float |} ] initialState) /\
  Forall (fun item => PrimFloat.is_nan (OrderItem.quantity item) = false /\
                      PrimFloat.is_zero (OrderItem.quantity item) = false)
         [ {| OrderItem.productId := ""; OrderItem.quantity := 4%float;
              OrderItem.unitPrice := 0%float |} ].
Proof.
  split; [reflexivity|].
  exact (quantities_stay_truthy sampleCatalog sampleControls _ eq_refl).
Defined.

(** X8: choosing the same product a second time changes nothing more: an
    update of productId that was carried out gives, when repeated on its
    result, that same result. *)
Theorem choose_product_twice
    (products : list Product.t) (index : nat) (id : string) (s s' : FormState)
    (Hdone : updateOrderItem products index Field.productId (Str id) s = Some s') :
  updateOrderItem products index Field.productId (Str id) s' = Some s'.
Proof.
  unfold updateOrderItem in *. simpl in *.
  destruct (Js.find _ products) as [product|] eqn:Hfind.
  - destruct (orderItems s !! index) as [item|] eqn:Hitem; [|discriminate].
    injection Hdone as <-. cbn [orderItems setOrderItems].
    rewrite list_lookup_insert_eq by (apply lookup_lt_is_Some; eauto).
    cbn [OrderItem.quantity]. rewrite list_insert_insert_eq. reflexivity.
  - injection Hdone as <-. rewrite !setOrderItems_same. reflexivity.
Qed.

Lemma choose_product_twice_witness :
  updateOrderItem sampleCatalog 1 Field.productId (Str "A") sampleDraft
    = Some (setOrderItems
              [ {| OrderItem.productId := "A"; OrderItem.quantity := 2%float;
                   OrderItem.unitPrice := 10%float |};
                {| OrderItem.productId := "A"; OrderItem.quantity := 1%float;
                   OrderItem.unitPrice := 10%float |} ] sampleDraft) /\
  updateOrderItem sampleCatalog 1 Field.productId (Str "A")
    (setOrderItems
       [ {| OrderItem.productId := "A"; OrderItem.quantity := 2%float;
            OrderItem.unitPrice := 10%float |};
         {| OrderItem.productId := "A"; OrderItem.quantity := 1%float;
            OrderItem.unitPrice := 10%float |} ] sampleDraft)
    = Some (setOrderItems
              [ {| OrderItem.productId := "A"; OrderItem.quantity := 2%float;
                   OrderItem.unitPrice := 10%float |};
                {| OrderItem.productId := "A"; OrderItem.quantity := 1%float;
                   OrderItem.unitPrice := 10%float |} ] sampleDraft).
Proof.
  split; [reflexivity|].
  exact (choose_product_twice sampleCatalog 1 "A" sampleDraft _ eq_refl).
Defined.

(** X9: on one row, setting the quantity and setting the unit price can be
    done in either order: both orders give the same state, and both are
    refused when the index is past the last row. *)
Theorem quantity_and_unitPrice_commute
    (products : list Product.t) (index : nat) (q p : number) (s : FormState) :
  (updateOrderItem products index Field.quantity (Num q) s
     ≫= updateOrderItem products index Field.unitPrice (Num p))
  = (updateOrderItem products index Field.unitPrice (Num p) s
       ≫= updateOrderItem products index Field.quantity (Num q)).
Proof.
  unfold updateOrderItem. simpl.
  destruct (orderItems s !! index) as [item|] eqn:Hitem; [|reflexivity].
  assert (index < length (orderItems s)) as Hlt by (apply lookup_lt_is_Some; eauto).
  simpl. rewrite !list_lookup_insert_eq by exact Hlt.
  simpl. rewrite !list_insert_insert_eq. reflexivity.
Qed.

(** X10: the quantity input stores the parsed number when that is truthy
    and 1 when it is zero or NaN (what parseInt gives for a field without
    digits); the other fields of the row stay, and the stored quantity is
    never zero or NaN. *)
Theorem onQuantityChange_within_bounds
    (products : list Product.t) (index : nat) (parsed : number)
    (s : FormState) (item : OrderItem.t)
    (Hitem : orderItems s !! index = Some item) :
  exists q,
    onQuantityChange products index parsed s
    = Some (setOrderItems
              (<[index := {| OrderItem.productId := OrderItem.productId item;
                             OrderItem.quantity := q;
                             OrderItem.unitPrice := OrderItem.unitPrice item |}]>
                 (orderItems s)) s) /\
    (Js.truthyNumber parsed = true -> q = parsed) /\
    (PrimFloat.is_nan parsed = true \/ PrimFloat.is_zero parsed = true -> q = 1%float) /\
    PrimFloat.is_nan q = false /\ PrimFloat.is_zero q = false.
Proof.
  exists (Js.numOr parsed 1%float).
  split; [unfold onQuantityChange, updateOrderItem; rewrite Hitem; reflexivity|].
  unfold Js.numOr, Js.truthyNumber.
  destruct (PrimFloat.is_nan parsed) eqn:Hnan, (PrimFloat.is_zero parsed) eqn:Hzero;
    simpl; repeat split; try reflexivity; try assumption;
    try (intros H; discriminate H); try (intros [H|H]; discriminate H).
Qed.

Lemma onQuantityChange_within_bounds_witness :
  orderItems sampleDraft !! 1
    = Some {| OrderItem.productId := "B"; OrderItem.quantity := 1%float;
              OrderItem.unitPrice := 5%float |} /\
  exists q,
    onQuantityChange sampleCatalog 1 nan sampleDraft
    = Some (setOrderItems
              (<[1 := {| OrderItem.productId := "B"; OrderItem.quantity := q;
                         OrderItem.unitPrice := 5%float |}]>
                 (orderItems sampleDraft)) sampleDraft) /\
    (Js.truthyNumber nan = true -> q = nan) /\
    (PrimFloat.is_nan nan = true \/ PrimFloat.is_zero nan = true -> q = 1%float) /\
    PrimFloat.is_nan q = false /\ PrimFloat.is_zero q = false.
Proof.
  split; [reflexivity|].
  exact (onQuantityChange_within_bounds sampleCatalog 1 nan sampleDraft _ eq_refl).
Defined.

(** X11: the unit price input stores the parsed number when that is truthy
    and 0 when it is zero, minus zero or NaN; the other fields of the row
    stay, and the stored price is never NaN and never minus zero. *)
Theorem onUnitPriceChange_within_bounds
    (products : list Product.t) (index : nat) (parsed : number)
    (s : FormState) (item : OrderItem.t)
    (Hitem : orderItems s !! index = Some item) :
  exists p,
    onUnitPriceChange products index parsed s
    = Some (setOrderItems
              (<[index := {| OrderItem.productId := OrderItem.productId item;
                             OrderItem.quantity := OrderItem.quantity item;
                             OrderItem.unitPrice := p |}]>
                 (orderItems s)) s) /\
    (Js.truthyNumber parsed = true -> p = parsed) /\
    (PrimFloat.is_nan parsed = true \/ PrimFloat.is_zero parsed = true -> p = 0%float) /\
    PrimFloat.is_nan p = false /\ p <> (-0)%float.
Proof.
  exists (Js.numOr parsed 0%float).
  split; [unfold onUnitPriceChange, updateOrderItem; rewrite Hitem; reflexivity|].
  unfold Js.numOr, Js.truthyNumber.
  destruct (PrimFloat.is_nan parsed) eqn:Hnan, (PrimFloat.is_zero parsed) eqn:Hzero;
    simpl; repeat split; try reflexivity; try assumption;
    try (intros H; discriminate H); try (intros [H|H]; discriminate H).
  intros ->. discriminate Hzero.
Qed.

Lemma onUnitPriceChange_within_bounds_witness :
  orderItems sampleDraft !! 0
    = Some {| OrderItem.productId := "A"; OrderItem.quantity := 2%float;
              OrderItem.unitPrice := 10%float |} /\
  exists p,
    onUnitPriceChange sampleCatalog 0 (-0)%float sampleDraft
    = Some (setOrderItems
              (<[0 := {| OrderItem.productId := "A"; OrderItem.quantity := 2%float;
                         OrderItem.unitPrice := p |}]>
                 (orderItems sampleDraft)) sampleDraft) /\
    (Js.truthyNumber (-0)%float = true -> p = (-0)%float) /\
    (PrimFloat.is_nan (-0)%float = true \/ PrimFloat.is_zero (-0)%float = true ->
       p = 0%float) /\
    PrimFloat.is_nan p = false /\ p <> (-0)%float.
Proof.
  split; [reflexivity|].
  exact (onUnitPriceChange_within_bounds sampleCatalog 0 (-0)%float sampleDraft _ eq_refl).
Defined.

(** * More on what a render shows *)


(** X13: after a product of the catalog is chosen for an existing row, the
    next render shows that row with the chosen id, the price of the
    catalog's product with that id, the row total quantity times that
    price, and the stock line of that same product (shown when its stock is
    below the row's quantity). *)
Theorem chosen_product_is_rendered
    (props : OrderFormProps) (index : nat) (id : string)
    (s : FormState) (item : OrderItem.t)
    (Hitem : orderItems s !! index = Some item)
    (Hid : In id (map Product.id (products props))) :
  exists product s',
    In product (products props) /\ Product.id product = id /\
    onProductChange (products props) index id s = Some s' /\
    rows (OrderForm props s') !! index
    = Some {| selected := id;
              quantityInput := OrderItem.quantity item;
              unitPriceInput := Product.price product;
              rowTotal := (OrderItem.quantity item * Product.price product)%float;
              stockNotice :=
                if PrimFloat.ltb (Product.stock_quantity product) (OrderItem.quantity item)
                then Some (Product.stock_quantity product) else None |}.
Proof.
  destruct (find_present (products props) id Hid) as (product & Hfind & Hin & Hpid).
  exists product. eexists. split; [exact Hin|]. split; [exact Hpid|].
  split.
  - unfold onProductChange, updateOrderItem. rewrite Hfind, Hitem. reflexivity.
  - unfold OrderForm. cbn [rows orderItems setOrderItems].
    change (map ?f ?l) with (f <$> l). rewrite list_lookup_fmap.
    rewrite list_lookup_insert_eq by (apply lookup_lt_is_Some; eauto).
    simpl. unfold renderRow. cbn [OrderItem.productId OrderItem.quantity OrderItem.unitPrice].
    rewrite Hfind. reflexivity.
Qed.

Lemma chosen_product_is_rendered_witness :
  orderItems overDraft !! 0
    = Some {| OrderItem.productId := "A"; OrderItem.quantity := 5%float;
              OrderItem.unitPrice := 10%float |} /\
  In "B" (map Product.id sampleCatalog) /\
  exists product s',
    In product sampleCatalog /\ Product.id product = "B" /\
    onProductChange sampleCatalog 0 "B" overDraft = Some s' /\
    rows (OrderForm {| customers := []; products := sampleCatalog |} s') !! 0
    = Some {| selected := "B";
              quantityInput := 5%float;
              unitPriceInput := Product.price product;
              rowTotal := (5 * Product.price product)%float;
              stockNotice :=
                if PrimFloat.ltb (Product.stock_quantity product) 5%float
                then Some (Product.stock_quantity product) else None |}.
Proof.
  assert (In "B" (map Product.id sampleCatalog)) as Hid by (simpl; auto).
  split; [reflexivity|]. split; [exact Hid|].
  exact (chosen_product_is_rendered {| customers := []; products := sampleCatalog |}
           0 "B" overDraft _ eq_refl Hid).
Defined.

(** * More on the order record *)

Lemma trimStart_clean (s : string) (c : ascii) (rest : string) :
  Js.trimStart s = String c rest -> Js.isWhiteSpace c = false.
Proof.
  induction s as [|a s IH]; simpl; [discriminate|].
  destruct (Js.isWhiteSpace a) eqn:Ha; [exact IH|].
  intros [= <- _]. exact Ha.
Qed.

Lemma trimEnd_keeps_head (s : string) (c : ascii) (rest : string) :
  Js.trimEnd s = String c rest -> exists rest', s = String c rest'.
Proof.
  destruct s as [|a s]; simpl; [discriminate|].
  destruct (Js.trimEnd s); [destruct (Js.isWhiteSpace a); [discriminate|]|];
    intros [= <- _]; eauto.
Qed.

Lemma trimStart_fixed (s : string) :
  (forall c rest, s = String c rest -> Js.isWhiteSpace c = false) -> Js.trimStart s = s.
Proof.
  destruct s as [|a s]; simpl; [reflexivity|].
  intros H. rewrite (H a s eq_refl). reflexivity.
Qed.

Lemma trimEnd_idempotent (s : string) : Js.trimEnd (Js.trimEnd s) = Js.trimEnd s.
Proof.
  induction s as [|a s IH]; simpl; [reflexivity|].
  destruct (Js.trimEnd s) as [|b kept] eqn:Hkept.
  - destruct (Js.isWhiteSpace a) eqn:Ha; simpl; [reflexivity|].
    rewrite Ha. reflexivity.
  - change (Js.trimEnd (String a (String b kept))) with
      (match Js.trimEnd (String b kept) with
       | EmptyString =>
           if Js.isWhiteSpace a then EmptyString else String a EmptyString
       | kept' => String a kept'
       end).
    rewrite IH. reflexivity.
Qed.

Lemma trim_idempotent (s : string) : Js.trim (Js.trim s) = Js.trim s.
Proof.
  unfold Js.trim at 1. rewrite trimStart_fixed.
  - unfold Js.trim. apply trimEnd_idempotent.
  - intros c rest Heq. unfold Js.trim in Heq.
    destruct (trimEnd_keeps_head _ _ _ Heq) as [rest' Hstart].
    exact (trimStart_clean _ _ _ Hstart).
Qed.

Lemma trimEnd_drops_last (pre : string) (c : ascii) :
  Js.isWhiteSpace c = true ->
  Js.trimEnd (pre ++ String c EmptyString)%string = Js.trimEnd pre.
Proof.
  intros Hc. induction pre as [|a pre IH]; simpl.
  - rewrite Hc. reflexivity.
  - rewrite IH. reflexivity.
Qed.

Lemma length_trimEnd (s : string) : String.length (Js.trimEnd s) <= String.length s.
Proof.
  induction s as [|a s IH]; simpl; [lia|].
  destruct (Js.trimEnd s); [destruct (Js.isWhiteSpace a)|]; simpl in *; lia.
Qed.

Lemma length_snoc (pre : string) (c : ascii) :
  String.length (pre ++ String c EmptyString)%string = S (String.length pre).
Proof. induction pre as [|a pre IH]; simpl; [reflexivity|]. rewrite IH. reflexivity. Qed.

Lemma trim_clean_end (s pre : string) (c : ascii) :
  Js.trim s = (pre ++ String c EmptyString)%string -> Js.isWhiteSpace c = false.
Proof.
  intros Heq. destruct (Js.isWhiteSpace c) eqn:Hc; [exfalso|reflexivity].
  assert (Js.trimEnd (Js.trim s) = Js.trim s) as Hfix
    by (unfold Js.trim; apply trimEnd_idempotent).
  rewrite Heq, (trimEnd_drops_last pre c Hc) in Hfix.
  pose proof (length_trimEnd pre) as Hle.
  rewrite Hfix, length_snoc in Hle. lia.
Qed.

(** X14: the order record never carries a placeholder where null is meant:
    its customer_id is never the walk-in sentinel, its payment_method is
    never the empty string, and its notes, when present, are not empty and
    neither start nor end with white space (trimming them again changes
    nothing). *)
Theorem orderData_is_normalised (s : FormState) :
  OrderData.customer_id (orderData s) <> Some "walk-in" /\
  OrderData.payment_method (orderData s) <> Some "" /\
  (forall n, OrderData.notes (orderData s) = Some n ->
     n <> "" /\ Js.trim n = n /\
     (forall c rest, n = String c rest -> Js.isWhiteSpace c = false) /\
     (forall pre c, n = (pre ++ String c EmptyString)%string -> Js.isWhiteSpace c = false)).
Proof.
  unfold orderData.
  cbn [OrderData.customer_id OrderData.payment_method OrderData.notes].
  split; [|split].
  - destruct (String.eqb (customerId s) "walk-in") eqn:E; [discriminate|].
    apply String.eqb_neq in E. congruence.
  - unfold Js.orNull. destruct (Js.truthy (paymentMethod s)) eqn:E; [|discriminate].
    intros [= Hp]. rewrite Hp in E. discriminate E.
  - intros n Hn. unfold Js.orNull in Hn.
    destruct (Js.truthy (Js.trim (notes s))) eqn:E; [|discriminate].
    injection Hn as <-. split; [|split; [|split]].
    + intros Hempty. rewrite Hempty in E. discriminate E.
    + apply trim_idempotent.
    + intros c rest Heq. unfold Js.trim in Heq.
      destruct (trimEnd_keeps_head _ _ _ Heq) as [rest' Hstart].
      exact (trimStart_clean _ _ _ Hstart).
    + intros pre c Heq. exact (trim_clean_end _ _ _ Heq).
Qed.

(** * More on submitting *)

Lemma submit_empty (be : Backend) (s : FormState) :
  orderItems s = [] ->
  submit be s
  = mkRun (Returned tt)
      (settled (Some "Please add at least one item to the order") s)
      [ PreventDefault; SetIsSubmitting true; SetError None;
        SetError (Some "Please add at least one item to the order");
        SetIsSubmitting false ].
Proof.
  intros Hempty. unfold submit, handleSubmit. rewrite Hempty. reflexivity.
Qed.

(** The handler reads the four draft cells and nothing else. *)
Lemma submit_reads_draft_only (be : Backend) (s s' : FormState) :
  customerId s' = customerId s -> paymentMethod s' = paymentMethod s ->
  notes s' = notes s -> orderItems s' = orderItems s ->
  submit be s' = submit be s.
Proof.
  destruct s as [c p n items b e], s' as [c' p' n' items' b' e']. simpl.
  intros -> -> -> ->. destruct items as [|item items].
  - rewrite !submit_empty by reflexivity. reflexivity.
  - rewrite !submit_nonempty by (simpl; discriminate). reflexivity.
Qed.

Lemma shownMessage_nonempty (e : PostgrestError.t) : shownMessage e <> "".
Proof.
  unfold shownMessage, Js.orElse.
  destruct (PostgrestError.message e) as [m|]; [|discriminate].
  destruct (Js.truthy m) eqn:E; [|discriminate].
  intros Hm. rewrite Hm in E. discriminate E.
Qed.

Ltac trace_members H :=
  simpl in H; repeat destruct H as [H|H]; try discriminate H; try contradiction.

(** X15: whatever the data store answers, the order total that is sent
    equals the sum of the item totals that are sent: if a run inserts the
    order record [d] and the item records [records], the total_amount of
    [d] is the sum (in order, from zero) of their total_price. *)
Theorem sent_total_matches_sent_items
    (be : Backend) (s : FormState) (d : OrderData.t) (records : list OrderItemData.t)
    (Horder : In (OrdersInsertSelectSingle [d]) (trace (submit be s)))
    (Hitems : In (OrderItemsInsert records) (trace (submit be s))) :
  OrderData.total_amount d = sumFrom 0%float (map OrderItemData.total_price records).
Proof.
  assert (forall order,
            OrderData.total_amount (orderData s)
            = sumFrom 0%float (map OrderItemData.total_price (orderItemsData s order)))
    as Hsum.
  { intros order. unfold orderData, orderItemsData. cbn [OrderData.total_amount].
    rewrite calculateTotal_sum. unfold sumOfLineTotals. rewrite map_map. reflexivity. }
  destruct (orderItems s) as [|item items] eqn:Hrows.
  - rewrite (submit_empty be s Hrows) in Hitems. trace_members Hitems.
  - assert (orderItems s <> []) as Hne by (rewrite Hrows; discriminate).
    rewrite (submit_nonempty be s Hne) in Horder, Hitems.
    destruct (ordersInsert be [orderData s]) as [order|orderError];
      [destruct (orderItemsInsert be (orderItemsData s order)) as [u|itemsError]|];
      cbn [trace] in Horder, Hitems; trace_members Horder; trace_members Hitems;
      injection Horder as <-; injection Hitems as <-; apply Hsum.
Qed.

Lemma sent_total_matches_sent_items_witness :
  In (OrdersInsertSelectSingle [orderData sampleDraft]) (trace (submit halfway sampleDraft)) /\
  In (OrderItemsInsert (orderItemsData sampleDraft {| Order.id := "o-1" |}))
     (trace (submit halfway sampleDraft)) /\
  OrderData.total_amount (orderData sampleDraft)
  = sumFrom 0%float
      (map OrderItemData.total_price (orderItemsData sampleDraft {| Order.id := "o-1" |})).
Proof.
  assert (In (OrdersInsertSelectSingle [orderData sampleDraft])
             (trace (submit halfway sampleDraft))) as Ho by (simpl; auto 10).
  assert (In (OrderItemsInsert (orderItemsData sampleDraft {| Order.id := "o-1" |}))
             (trace (submit halfway sampleDraft))) as Hi by (simpl; auto 10).
  split; [exact Ho|]. split; [exact Hi|].
  exact (sent_total_matches_sent_items halfway sampleDraft _ _ Ho Hi).
Defined.

(** X16: the calls that reach the data store follow one protocol in every
    run: none for an empty draft; otherwise the order insert, followed by
    the item insert exactly when the order insert succeeded.  No run deletes
    an order, and the client is created only when the draft has items. *)
Theorem store_calls_follow_the_protocol (be : Backend) (s : FormState) :
  ((orderItems s = [] /\ storeCalls (trace (submit be s)) = []) \/
   (orderItems s <> [] /\
    exists orderError,
      ordersInsert be [orderData s] = Failure orderError /\
      storeCalls (trace (submit be s)) = [ OrdersInsertSelectSingle [orderData s] ]) \/
   (orderItems s <> [] /\
    exists order,
      ordersInsert be [orderData s] = Success order /\
      storeCalls (trace (submit be s))
      = [ OrdersInsertSelectSingle [orderData s];
          OrderItemsInsert (orderItemsData s order) ])) /\
  (forall id, ~ In (OrdersDelete id) (trace (submit be s))) /\
  (In CreateClient (trace (submit be s)) <-> orderItems s <> []).
Proof.
  destruct (orderItems s) as [|item items] eqn:Hrows.
  - rewrite (submit_empty be s Hrows). cbn [trace]. split; [|split].
    + left. split; reflexivity.
    + intros id H. trace_members H.
    + split; [intros H; trace_members H|intros H; contradiction].
  - assert (orderItems s <> []) as Hne by (rewrite Hrows; discriminate).
    rewrite (submit_nonempty be s Hne).
    destruct (ordersInsert be [orderData s]) as [order|orderError] eqn:Hfirst;
      [destruct (orderItemsInsert be (orderItemsData s order)) as [u|itemsError]|];
      cbn [trace]; (split; [|split]);
      try (intros id H; trace_members H);
      try (split; [intros _; discriminate|intros _; simpl; auto 10]).
    + right. right. split; [discriminate|]. exists order. split; reflexivity.
    + right. right. split; [discriminate|]. exists order. split; reflexivity.
    + right. left. split; [discriminate|]. exists orderError. split; reflexivity.
Qed.

(** X17: the handler navigates exactly when both inserts succeed, and then
    to the page of the created order: the router is called with a path if
    and only if the draft has items, the order insert returned an order, the
    item insert succeeded and the path is "/dashboard/orders/" followed by
    that order's id. *)
Theorem navigates_iff_both_inserts_succeed (be : Backend) (s : FormState) (href : string) :
  In (RouterPush href) (trace (submit be s)) <->
  orderItems s <> [] /\
  exists order,
    ordersInsert be [orderData s] = Success order /\
    orderItemsInsert be (orderItemsData s order) = Success tt /\
    href = ("/dashboard/orders/" ++ Order.id order)%string.
Proof.
  destruct (orderItems s) as [|item items] eqn:Hrows.
  - rewrite (submit_empty be s Hrows). cbn [trace]. split.
    + intros H. trace_members H.
    + intros [H _]. contradiction.
  - assert (orderItems s <> []) as Hne by (rewrite Hrows; discriminate).
    rewrite (submit_nonempty be s Hne).
    destruct (ordersInsert be [orderData s]) as [order|orderError] eqn:Hfirst;
      [destruct (orderItemsInsert be (orderItemsData s order)) as [[]|itemsError] eqn:Hsecond|];
      cbn [trace]; split.
    + intros H. trace_members H. injection H as <-.
      split; [discriminate|]. exists order. repeat split. exact Hsecond.
    + intros (_ & order' & [= <-] & _ & ->). simpl. auto 10.
    + intros H. trace_members H.
    + intros (_ & order' & [= <-] & Hok & _). rewrite Hsecond in Hok. discriminate Hok.
    + intros H. trace_members H.
    + intros (_ & order' & Hok & _). discriminate Hok.
Qed.

(** X18: a submission can be repeated: after any run, whatever its
    outcome, submitting the state it left runs exactly as submitting the
    state before did, against any data store; the same order record is sent
    again. *)
Theorem resubmit_repeats_the_run (be be' : Backend) (s : FormState) :
  submit be' (final (submit be s)) = submit be' s /\
  orderData (final (submit be s)) = orderData s.
Proof.
  destruct (submit_always_settles be s) as [_ [e ->]].
  split; [|reflexivity].
  apply submit_reads_draft_only; reflexivity.
Qed.

(** X19: the handler itself does not look at the submitting flag or at the
    error shown: called on a state whose flag is already up, it makes the
    same calls with the same records and leaves the same state. *)
Theorem submit_ignores_flag_and_error
    (be : Backend) (b : bool) (e : option string) (s : FormState) :
  submit be (setIsSubmitting b (setError e s)) = submit be s.
Proof. apply submit_reads_draft_only; reflexivity. Qed.

(** X20: the next render shows an error text exactly when the submission
    did not go through: the text is absent if and only if the draft had
    items and both inserts succeeded (an error shown before is cleared
    then), and a text that is shown is never empty. *)
Theorem error_text_after_submit (props : OrderFormProps) (be : Backend) (s : FormState) :
  (errorText (OrderForm props (final (submit be s))) = None <->
   orderItems s <> [] /\
   exists order,
     ordersInsert be [orderData s] = Success order /\
     orderItemsInsert be (orderItemsData s order) = Success tt) /\
  (forall text, errorText (OrderForm props (final (submit be s))) = Some text ->
     text <> "").
Proof.
  assert (forall m, m <> "" -> Js.orNull m = Some m) as Hshown
    by exact orNull_nonempty.
  destruct (orderItems s) as [|item items] eqn:Hrows.
  - rewrite (submit_empty be s Hrows). cbn [OrderForm errorText final settled error].
    split.
    + split; [discriminate|]. intros [H _]. contradiction.
    + intros text [= <-]. discriminate.
  - assert (orderItems s <> []) as Hne by (rewrite Hrows; discriminate).
    rewrite (submit_nonempty be s Hne).
    destruct (ordersInsert be [orderData s]) as [order|orderError] eqn:Hfirst;
      [destruct (orderItemsInsert be (orderItemsData s order)) as [[]|itemsError] eqn:Hsecond|];
      cbn [OrderForm errorText final settled error].
    + split; [|discriminate].
      split; [|reflexivity]. intros _. split; [discriminate|].
      exists order. split; [reflexivity|exact Hsecond].
    + rewrite (Hshown _ (shownMessage_nonempty itemsError)). split.
      * split; [discriminate|].
        intros (_ & order' & [= <-] & Hok). rewrite Hsecond in Hok. discriminate Hok.
      * intros text [= <-]. apply shownMessage_nonempty.
    + rewrite (Hshown _ (shownMessage_nonempty orderError)). split.
      * split; [discriminate|]. intros (_ & order' & Hok & _). discriminate Hok.
      * intros text [= <-]. apply shownMessage_nonempty.
Qed.

(** X21: a click on an enabled submit button always gets past the guard:
    when the render does not disable the button, the handler creates the
    client and issues the order insert, whatever the data store answers
    afterwards. *)
Theorem enabled_button_passes_guard
    (props : OrderFormProps) (be : Backend) (s : FormState)
    (Henabled : submitDisabled (OrderForm props s) = false) :
  exists rest,
    trace (run be (onSubmit (OrderForm props s)) s)
    = [ PreventDefault; SetIsSubmitting true; SetError None; CreateClient;
        OrdersInsertSelectSingle [orderData s] ] ++ rest.
Proof.
  cbn [OrderForm submitDisabled onSubmit] in *.
  apply orb_false_iff in Henabled as [_ Hlen]. apply Nat.eqb_neq in Hlen.
  assert (orderItems s <> []) as Hne by (intros H; rewrite H in Hlen; apply Hlen; reflexivity).
  change (run be (handleSubmit s) s) with (submit be s).
  rewrite (submit_nonempty be s Hne).
  destruct (ordersInsert be [orderData s]) as [order|orderError];
    [destruct (orderItemsInsert be (orderItemsData s order)) as [u|itemsError]|];
    cbn [trace]; eexists; reflexivity.
Qed.

Lemma enabled_button_passes_guard_witness :
  submitDisabled (OrderForm {| customers := []; products := sampleCatalog |} staleDraft)
    = false /\
  exists rest,
    trace (run refusing
             (onSubmit (OrderForm {| customers := []; products := sampleCatalog |} staleDraft))
             staleDraft)
    = [ PreventDefault; SetIsSubmitting true; SetError None; CreateClient;
        OrdersInsertSelectSingle [orderData staleDraft] ] ++ rest.
Proof.
  split; [reflexivity|].
  exact (enabled_button_passes_guard {| customers := []; products := sampleCatalog |}
           refusing staleDraft eq_refl).
Defined.
